(** * rdtp: the retransmission controller and the sockets

    A shallow embedding of [atc/atc.go] and of the two versions of
    [service/ports/socket/socket.go], with the properties of the
    specification stated over it.

    Conventions.
    - A Go [uint32] is a [Z] in [0, 2^32); additions wrap and the wrap is
      written out with [uint32].
    - A Go [error] is an [option string]: [None] is [nil], [Some msg] an
      error whose text is [msg].
    - A [map[uint32]*packet.Packet] is a [gmap Z Packet].  The controller
      never writes to a packet, so the pointer it stores is modelled by the
      packet it points to; where a property depends on what the callback
      writes through the pointer, [atc_ptr] keeps the packets in a heap.
    - Code that can panic or block on a channel returns an [outcome], and
      the calls it makes on its collaborators are recorded in a trace. *)

From Stdlib Require Import ZArith Lia Ascii String.
From stdpp Require Import gmap strings list.

Open Scope Z_scope.

(** ** Machine integers and errors *)

Definition uint32 (z : Z) : Z := z mod 2 ^ 32.

Definition error : Type := option string.

Definition uint16 (z : Z) : Z := z mod 2 ^ 16.

(** ** Goroutines: outcomes, call traces, channels *)

(** What a piece of straight-line Go code can do: finish with a value,
    panic, or block for ever on a channel operation that is not ready. *)
Inductive outcome (A : Type) : Type :=
| Done (a : A)
| Panic (msg : string)
| Blocked.
Arguments Done {A} a.
Arguments Panic {A} msg.
Arguments Blocked {A}.

(** One turn of a [for] loop either goes round again or returns. *)
Inductive loop (A : Type) : Type :=
| Continue (a : A)
| Return (a : A).
Arguments Continue {A} a.
Arguments Return {A} a.

Definition loop_state {A : Type} (l : loop A) : A :=
  match l with Continue a => a | Return a => a end.

(** The method calls a socket makes on its collaborators: the
    application-facing connection, the retransmission controller, the
    packet factory and the logger. *)
Inductive Call : Type :=
| AppRead
| AppWrite (payload : list Byte.byte)
| AppClose
| AtcAck (num : Z)
| FactorySend (msg : list Byte.byte)
| FactoryControl (syn ack fin err : bool)
| LogPrintf (msg : string).

(** A computation that records its calls, in order, and ends in an
    outcome.  The calls made before a panic stay in the trace. *)
Definition io (A : Type) : Type := list Call * outcome A.

Definition ret {A : Type} (a : A) : io A := ([], Done a).

Definition bind {A B : Type} (f : A -> io B) (m : io A) : io B :=
  match m with
  | (t, Done a) => let '(t', o) := f a in (t ++ t', o)
  | (t, Panic msg) => (t, Panic msg)
  | (t, Blocked) => (t, Blocked)
  end.

#[export] Instance io_ret : MRet io := @ret.
#[export] Instance io_bind : MBind io := @bind.

Definition call (c : Call) : io unit := ([c], Done tt).

Definition lift {A : Type} (o : outcome A) : io A := ([], o).

Module chan.

(** A buffered Go channel: the queued values, the capacity, and whether
    [close] has been called. *)
Record chan (A : Type) : Type := mk {
  buf : list A;
  cap : nat;
  closed : bool;
}.
Arguments mk {A} buf cap closed.
Arguments buf {A} c.
Arguments cap {A} c.
Arguments closed {A} c.

Definition make {A : Type} (n : nat) : chan A :=
  {| buf := []; cap := n; closed := false |}.

(** [c <- x]: panics on a closed channel, blocks on a full one. *)
Definition send {A : Type} (x : A) (c : chan A) : outcome (chan A) :=
  if closed c then Panic "send on closed channel"
  else if decide (length (buf c) < cap c)%nat
       then Done {| buf := buf c ++ [x]; cap := cap c; closed := closed c |}
       else Blocked.

(** [close(c)]. *)
Definition close {A : Type} (c : chan A) : outcome (chan A) :=
  if closed c then Panic "close of closed channel"
  else Done {| buf := buf c; cap := cap c; closed := true |}.

(** [<-c]: the oldest queued value; on a closed and drained channel the
    zero value, at once; otherwise the receive is not ready. *)
Inductive received (A : Type) : Type :=
| Value (x : A) (c : chan A)
| Zero
| NotReady.
Arguments Value {A} x c.
Arguments Zero {A}.
Arguments NotReady {A}.

Definition recv {A : Type} (c : chan A) : received A :=
  match buf c with
  | x :: rest => Value x {| buf := rest; cap := cap c; closed := closed c |}
  | [] => if closed c then Zero else NotReady
  end.

End chan.

(** ** Package packet *)

Module packet.

(** Modelled from the spec: the declaration of [packet.Packet] is not
    among the sources.  The fields are the header fields of the data
    model (ports, length, checksum, sequence and acknowledgement numbers,
    the four control flags) and the payload; the sources read [SeqNo],
    [AckNo], [Length], [Payload] and the four flag accessors. *)
Record Packet : Type := mkPacket {
  SrcPort : Z;
  DstPort : Z;
  Length : Z;
  Checksum : Z;
  SeqNo : Z;
  AckNo : Z;
  SYN : bool;
  ACK : bool;
  FIN : bool;
  ERR : bool;
  Payload : list Byte.byte;
}.

Definition IsSYN (p : Packet) : bool := SYN p.
Definition IsACK (p : Packet) : bool := ACK p.
Definition IsFIN (p : Packet) : bool := FIN p.
Definition IsERR (p : Packet) : bool := ERR p.

(** A data packet with the given numbers and payload, all flags clear. *)
Definition data (seq ack : Z) (payload : list Byte.byte) : Packet :=
  {| SrcPort := 0; DstPort := 0; Length := Z.of_nat (length payload);
     Checksum := 0; SeqNo := seq; AckNo := ack;
     SYN := false; ACK := false; FIN := false; ERR := false;
     Payload := payload |}.

(** A control packet: no payload, the given flags. *)
Definition control (syn ack fin err : bool) : Packet :=
  {| SrcPort := 0; DstPort := 0; Length := 0;
     Checksum := 0; SeqNo := 0; AckNo := 0;
     SYN := syn; ACK := ack; FIN := fin; ERR := err;
     Payload := [] |}.

End packet.

Import packet.

(** ** Package atc: the transmissions controller *)

Module atc.

Section Controller.

(** [Net] is the state of whatever the transmit callback acts on (the
    network layer).  The callback [fwFunc] is a field of the
    controller, as in the source. *)
Context {Net : Type}.

Record AirTrafficCtrl : Type := mkATC {
  ackWait : Z;
  fwFunc : Packet -> Net -> error * Net;
  inFlight : gmap Z Packet;
}.

(** [time.Second * 1], in nanoseconds. *)
Definition defaultAckWaitTime : Z := 1000000000.

Definition NewAirTrafficCtrl (fw : Packet -> Net -> error * Net)
  : AirTrafficCtrl :=
  {| ackWait := defaultAckWaitTime;
     fwFunc := fw;
     inFlight := ∅ |}.

Definition register (pck : Packet) (a : AirTrafficCtrl) : AirTrafficCtrl :=
  {| ackWait := ackWait a;
     fwFunc := fwFunc a;
     inFlight := <[SeqNo pck := pck]> (inFlight a) |}.

(** [Send]: the packet is stored under its sequence number, then the
    callback runs; its error, if any, is wrapped and returned.  Both
    return paths leave the map as it is after the store. *)
Definition Send (pck : Packet) (a : AirTrafficCtrl) (net : Net)
  : error * AirTrafficCtrl * Net :=
  let a' := register pck a in
  match fwFunc a' pck net with
  | (Some err, net') =>
      (Some ("could not send packet: " +:+ err), a', net')
  | (None, net') => (None, a', net')
  end.

(** [Ack] has no result: it cannot report an error. *)
Definition Ack (num : Z) (a : AirTrafficCtrl) : AirTrafficCtrl :=
  {| ackWait := ackWait a;
     fwFunc := fwFunc a;
     inFlight := delete num (inFlight a) |}.

(** *** The controller over time

    [Send] and [Ack] are the only functions of the package besides the
    constructor.  The constructor starts no goroutine and no timer, and
    [ackWait] is read by no function: when time passes and nobody calls
    the controller, no code of the package runs. *)
Inductive Event : Type :=
| EvSend (pck : Packet)
| EvAck (num : Z)
| EvElapse (d : Z).

Definition step (st : AirTrafficCtrl * Net) (e : Event)
  : AirTrafficCtrl * Net :=
  match e with
  | EvSend pck => let '(_, a, net) := Send pck st.1 st.2 in (a, net)
  | EvAck num => (Ack num st.1, st.2)
  | EvElapse _ => st
  end.

Definition run (es : list Event) (st : AirTrafficCtrl * Net)
  : AirTrafficCtrl * Net :=
  fold_left step es st.

Definition sends (es : list Event) : list Packet :=
  omap (fun e => match e with EvSend pck => Some pck | _ => None end) es.

(** An event of time passing, as opposed to a call. *)
Definition is_elapse (e : Event) : Prop :=
  match e with EvElapse _ => True | _ => False end.

End Controller.

Arguments AirTrafficCtrl : clear implicits.

(** A network that records every packet handed to the callback, in
    order; [ok pck] tells whether the transmission of [pck] succeeds. *)
Definition recording (ok : Packet -> error) (pck : Packet)
    (log : list Packet) : error * list Packet :=
  (ok pck, log ++ [pck]).

Definition always_ok (pck : Packet) : error := None.
Definition always_down (pck : Packet) : error := Some "network is down".

(** The event [e] is no call about the sequence number [n]: neither a
    [Send] of a packet numbered [n] nor [Ack n]. *)
Definition leaves (n : Z) (e : Event) : Prop :=
  match e with
  | EvSend pck => SeqNo pck ≠ n
  | EvAck num => num ≠ n
  | EvElapse _ => True
  end.

End atc.

(** ** Package atc, with the packets behind their pointers

    The map of the controller holds pointers, and [Send] gives its
    callback the pointer it has just stored, so the callback can write to
    the packet.  For what depends on such writes the packets live in a
    heap, the map holds their addresses, and the callback acts on the heap
    as well as on the network.  An address with no packet is a nil
    pointer. *)

Module atc_ptr.

Abbreviation Heap := (gmap positive Packet).

Section Controller.

Context {Net : Type}.

Record AirTrafficCtrl : Type := mkATC {
  ackWait : Z;
  fwFunc : positive -> Heap -> Net -> error * Heap * Net;
  inFlight : gmap Z positive;
}.

Definition NewAirTrafficCtrl
    (fw : positive -> Heap -> Net -> error * Heap * Net) : AirTrafficCtrl :=
  {| ackWait := atc.defaultAckWaitTime;
     fwFunc := fw;
     inFlight := ∅ |}.

(** [Send]: reading [pck.SeqNo] through a nil pointer panics; otherwise
    the pointer is stored under the number the packet has at that moment,
    and the callback runs on the same pointer. *)
Definition Send (pck : positive) (a : AirTrafficCtrl) (h : Heap) (net : Net)
  : outcome (error * AirTrafficCtrl * Heap * Net) :=
  match h !! pck with
  | None => Panic "invalid memory address or nil pointer dereference"
  | Some p =>
      let a' := {| ackWait := ackWait a;
                   fwFunc := fwFunc a;
                   inFlight := <[SeqNo p := pck]> (inFlight a) |} in
      match fwFunc a' pck h net with
      | (Some err, h', net') =>
          Done (Some ("could not send packet: " +:+ err), a', h', net')
      | (None, h', net') => Done (None, a', h', net')
      end
  end.

Definition Ack (num : Z) (a : AirTrafficCtrl) : AirTrafficCtrl :=
  {| ackWait := ackWait a;
     fwFunc := fwFunc a;
     inFlight := delete num (inFlight a) |}.

(** Every entry of the map points to a packet that carries the number the
    entry is stored under. *)
Definition keyed (h : Heap) (fl : gmap Z positive) : Prop :=
  forall (k : Z) (l : positive),
    fl !! k = Some l -> exists p, h !! l = Some p /\ SeqNo p = k.

(** The callback writes to no packet's sequence number. *)
Definition keeps_numbers
    (fw : positive -> Heap -> Net -> error * Heap * Net) : Prop :=
  forall (pck : positive) (h : Heap) (net : Net) (l : positive) (p : Packet),
    h !! l = Some p ->
    exists p', (fw pck h net).1.2 !! l = Some p' /\ SeqNo p' = SeqNo p.

End Controller.

Arguments AirTrafficCtrl : clear implicits.

(** [p.SeqNo = n]. *)
Definition renumber (n : Z) (p : Packet) : Packet :=
  packet.mkPacket (SrcPort p) (DstPort p) (Length p) (Checksum p) n
    (AckNo p) (SYN p) (ACK p) (FIN p) (ERR p) (Payload p).

(** A callback that transmits the packet it is given, as it is. *)
Definition transmitting (pck : positive) (h : Heap) (sent : list Packet)
  : error * Heap * list Packet :=
  (None, h, sent ++ option_list (h !! pck)).

(** A callback that writes [n] to the sequence number of the packet it is
    given, and transmits it. *)
Definition renumbering (n : Z) (pck : positive) (h : Heap)
    (sent : list Packet) : error * Heap * list Packet :=
  (None, alter (renumber n) pck h,
   sent ++ option_list (alter (renumber n) pck h !! pck)).

End atc_ptr.

(** ** Package rdtp *)

Module rdtp.

(** Modelled from the spec: [rdtp.Addr] is declared outside the sources.
    An address is a (host, port) pair; the sockets read [Host] and
    [Port]. *)
Record Addr : Type := mkAddr {
  Host : string;
  Port : Z;
}.

End rdtp.

Import rdtp.

(** ** Package socket, first version: handshake, run loop, shutdown *)

Module socket.

(** The case a [select] statement took. *)
Inductive WaitCase : Type := CaseInboundW | CaseTimeout.
Inductive ReceiveCase : Type := CaseDone | CaseInbound.
Inductive RunCase : Type := CaseSignal | CaseShutdown.

(** The error of [application.Read]: [io.EOF] or any other. *)
Inductive ReadError : Type := EOF | OtherError (msg : string).

(** [%t] of package fmt. *)
Definition fmt_t (b : bool) : string := if b then "true" else "false".

(** The four flags of a packet are exactly the requested ones. *)
Definition flags_are (syn ack fin err : bool) (p : Packet) : Prop :=
  IsSYN p = syn /\ IsACK p = ack /\ IsFIN p = fin /\ IsERR p = err.

Section Socket.

(** What the file imports and does not define: [net.IP] and
    [net.ParseIP] ([None] is the nil address), [net.Conn], the network
    layer with its [Send], the two address setters of a packet, the
    packet factory with its constructor, and [String] of [rdtp.Addr]. *)
Variable IP : Type.
Variable ParseIP : string -> option IP.
Variable Addr_String : Addr -> string.
Variable Conn : Type.
Variable NetworkLayer : Type.
Variable Network_Send : Packet -> NetworkLayer -> error * NetworkLayer.
Variable SetSourceIPv4 : option IP -> Packet -> Packet.
Variable SetDestinationIPv4 : option IP -> Packet -> Packet.
Variable PacketFactory : Type.
Variable DefaultPacketFactory :
  option IP -> option IP -> Z -> Z ->
  (Packet -> NetworkLayer -> error * NetworkLayer) -> PacketFactory.

Record Socket : Type := mkSocket {
  lAddr : Addr;
  rAddr : Addr;
  txBytes : Z;
  rxBytes : Z;
  application : Conn;
  packetizer : PacketFactory;
  inbound : chan.chan Packet;
  shutdown : chan.chan bool;
}.

(** The pointers and interfaces of a [Config] may be nil: [None]. *)
Record Config : Type := mkConfig {
  LocalAddr : option Addr;
  RemoteAddr : option Addr;
  Application : option Conn;
  Network : option NetworkLayer;
}.

Definition set_rxBytes (n : Z) (s : Socket) : Socket :=
  mkSocket (lAddr s) (rAddr s) (txBytes s) n (application s)
           (packetizer s) (inbound s) (shutdown s).

Definition set_txBytes (n : Z) (s : Socket) : Socket :=
  mkSocket (lAddr s) (rAddr s) n (rxBytes s) (application s)
           (packetizer s) (inbound s) (shutdown s).

Definition set_inbound (c : chan.chan Packet) (s : Socket) : Socket :=
  mkSocket (lAddr s) (rAddr s) (txBytes s) (rxBytes s) (application s)
           (packetizer s) c (shutdown s).

Definition set_shutdown (c : chan.chan bool) (s : Socket) : Socket :=
  mkSocket (lAddr s) (rAddr s) (txBytes s) (rxBytes s) (application s)
           (packetizer s) (inbound s) c.

(** [ID]: [fmt.Sprintf("%s %s", ...)] of the two addresses. *)
Definition ID (s : Socket) : string :=
  Addr_String (lAddr s) +:+ " " +:+ Addr_String (rAddr s).

(** The closure [toNetwork] of [New]. *)
Definition toNetwork (la ra : Addr) (p : Packet) (nw : NetworkLayer)
  : error * NetworkLayer :=
  let p1 := SetSourceIPv4 (ParseIP (Host la)) p in
  let p2 := SetDestinationIPv4 (ParseIP (Host ra)) p1 in
  Network_Send p2 nw.

(** [New].  The four checks in the order of the source; the second one
    tests the host of [c.LocalAddr] again, as the source does. *)
Definition New (c : Config) : option Socket * error :=
  match LocalAddr c with
  | None => (None, Some "invalid local address")
  | Some la =>
    match ParseIP (Host la) with
    | None => (None, Some "invalid local address")
    | Some _ =>
      match RemoteAddr c with
      | None => (None, Some "remote address cannot be nil")
      | Some ra =>
        match ParseIP (Host la) with
        | None => (None, Some "remote address cannot be nil")
        | Some _ =>
          match Application c with
          | None =>
              (None, Some "connection to application layer cannot be nil")
          | Some app =>
            match Network c with
            | None =>
                (None, Some "connection to network layer cannot be nil")
            | Some _ =>
                (Some {| lAddr := la;
                         rAddr := ra;
                         txBytes := 0;
                         rxBytes := 0;
                         application := app;
                         packetizer :=
                           DefaultPacketFactory
                             (ParseIP (Host la)) (ParseIP (Host ra))
                             (uint16 (Port la)) (uint16 (Port ra))
                             (toNetwork la ra);
                         inbound := chan.make 100;
                         shutdown := chan.make 1 |},
                 None)
            end
          end
        end
      end
    end
  end.

(** [Close]: send on [shutdown], close it, close the application. *)
Definition Close (s : Socket) : io Socket :=
  sh1 ← lift (chan.send true (shutdown s));
  sh2 ← lift (chan.close sh1);
  call AppClose;;
  mret (set_shutdown sh2 s).

(** [SendControlPacket] returns what the factory's method returns, [r]. *)
Definition SendControlPacket (syn ack fin err : bool) (r : error)
    (s : Socket) : io (error * Socket) :=
  call (FactoryControl syn ack fin err);;
  mret (r, s).

(** [Deliver]. *)
Definition Deliver (p : Packet) (s : Socket) : io Socket :=
  ch ← lift (chan.send p (inbound s));
  mret (set_inbound ch s).

(** The text of a flag-mismatch error that names [flag]. *)
Definition mismatch (flag : string) (want got : bool) : string :=
  "expected a packet with " +:+ flag +:+ "[" +:+ fmt_t want
  +:+ "] but got one with " +:+ flag +:+ "[" +:+ fmt_t got +:+ "]".

(** The flag comparison of [WaitForControlPacket], on the received
    packet. *)
Definition check_flags (syn ack fin err : bool) (p : Packet) : error :=
  if negb (Bool.eqb syn (IsSYN p)) then
    Some ("expected a packet with SYN[" +:+ fmt_t syn
          +:+ "] but got one with SYN[" +:+ fmt_t (IsSYN p) +:+ "]")
  else if negb (Bool.eqb ack (IsACK p)) then
    Some ("expected a packet with ACK[" +:+ fmt_t ack
          +:+ "] but got one with ACK[" +:+ fmt_t (IsACK p) +:+ "]")
  else if negb (Bool.eqb fin (IsFIN p)) then
    Some ("expected a packet with FIN[" +:+ fmt_t fin
          +:+ "] but got one with FIN[" +:+ fmt_t (IsFIN p) +:+ "]")
  else if negb (Bool.eqb err (IsERR p)) then
    Some ("expected a packet with ERR[" +:+ fmt_t err
          +:+ "] but got one with ERR[" +:+ fmt_t (IsERR p) +:+ "]")
  else None.

(** [WaitForControlPacket].  Every branch of the [select] returns, so
    the [for] loop runs its body once.  [sel] is the case the [select]
    took: the receive, which is ready only when [inbound] holds a
    packet (or is closed, and then yields the nil packet, whose flags
    cannot be read), or the timer of [timeout], which is ready once the
    timeout has elapsed. *)
Definition WaitForControlPacket (syn ack fin err : bool) (timeout : Z)
    (sel : WaitCase) (s : Socket) : io (error * Socket) :=
  match sel with
  | CaseInboundW =>
      match chan.recv (inbound s) with
      | chan.Value p ch =>
          mret (check_flags syn ack fin err p, set_inbound ch s)
      | chan.Zero =>
          lift (Panic "invalid memory address or nil pointer dereference")
      | chan.NotReady => lift Blocked
      end
  | CaseTimeout => mret (Some "operation timed out", s)
  end.

(** One turn of the loop of [Run], once the two pumps are started with
    their channels [rxdone] and [txdone]; [sel] is the case taken.  A
    signal is taken and dropped; the shutdown case tells both pumps. *)
Definition Run_iter (sel : RunCase) (rxdone txdone : chan.chan bool)
    (s : Socket) : io (loop (chan.chan bool * chan.chan bool * Socket)) :=
  let stop (s' : Socket) :=
    tx1 ← lift (chan.send true txdone);
    rx1 ← lift (chan.send true rxdone);
    tx2 ← lift (chan.close tx1);
    rx2 ← lift (chan.close rx1);
    mret (Return (rx2, tx2, s')) in
  match sel with
  | CaseSignal => mret (Continue (rxdone, txdone, s))
  | CaseShutdown =>
      match chan.recv (shutdown s) with
      | chan.Value _ sh => stop (set_shutdown sh s)
      | chan.Zero => stop s
      | chan.NotReady => lift Blocked
      end
  end.

(** One turn of the loop of [receive]; [sel] is the case taken. *)
Definition receive_iter (sel : ReceiveCase) (done : chan.chan bool)
    (s : Socket) : io (loop (chan.chan bool * Socket)) :=
  match sel with
  | CaseDone =>
      match chan.recv done with
      | chan.Value _ done' =>
          ch ← lift (chan.close (inbound s));
          mret (Return (done', set_inbound ch s))
      | chan.Zero =>
          ch ← lift (chan.close (inbound s));
          mret (Return (done, set_inbound ch s))
      | chan.NotReady => lift Blocked
      end
  | CaseInbound =>
      match chan.recv (inbound s) with
      | chan.Value p ch =>
          let s1 := set_inbound ch s in
          let s2 := set_rxBytes (uint32 (rxBytes s1 + uint32 (Length p))) s1 in
          call (AppWrite (Payload p));;
          mret (Continue (done, s2))
      | chan.Zero =>
          lift (Panic "invalid memory address or nil pointer dereference")
      | chan.NotReady => lift Blocked
      end
  end.

(** What the environment answers during one turn of [transmit]: the
    bytes and the error of [application.Read], and the count and the
    error of [PackAndForwardMessage]. *)
Record TransmitEnv : Type := mkTransmitEnv {
  readData : list Byte.byte;
  readErr : option ReadError;
  packN : Z;
  packErr : error;
}.

(** One turn of the loop of [transmit]. *)
Definition transmit_iter (env : TransmitEnv) (done : chan.chan bool)
    (s : Socket) : io (loop (chan.chan bool * Socket)) :=
  match chan.recv done with
  | chan.Value _ done' => mret (Return (done', s))
  | chan.Zero => mret (Return (done, s))
  | chan.NotReady =>
      call AppRead;;
      match readErr env with
      | Some EOF =>
          sh ← lift (chan.send true (shutdown s));
          mret (Return (done, set_shutdown sh s))
      | Some (OtherError _) => mret (Continue (done, s))
      | None =>
          call (FactorySend (readData env));;
          match packErr env with
          | Some e =>
              call (LogPrintf
                      ("[rdtp socket " +:+ ID s
                       +:+ "] Error packetizing and forwarding message: "
                       +:+ e));;
              mret (Return (done, s))
          | None =>
              mret (Continue
                      (done, set_txBytes (uint32 (txBytes s + uint32 (packN env))) s))
          end
      end
  end.

End Socket.

Arguments lAddr {Conn PacketFactory} s.
Arguments rAddr {Conn PacketFactory} s.
Arguments txBytes {Conn PacketFactory} s.
Arguments rxBytes {Conn PacketFactory} s.
Arguments application {Conn PacketFactory} s.
Arguments packetizer {Conn PacketFactory} s.
Arguments inbound {Conn PacketFactory} s.
Arguments shutdown {Conn PacketFactory} s.
Arguments mkSocket {Conn PacketFactory}.
Arguments mkConfig {Conn NetworkLayer}.
Arguments LocalAddr {Conn NetworkLayer} c.
Arguments RemoteAddr {Conn NetworkLayer} c.
Arguments Application {Conn NetworkLayer} c.
Arguments Network {Conn NetworkLayer} c.
Arguments New {IP} ParseIP {Conn NetworkLayer} Network_Send
  SetSourceIPv4 SetDestinationIPv4 {PacketFactory} DefaultPacketFactory c.
Arguments Close {Conn PacketFactory} s.
Arguments Deliver {Conn PacketFactory} p s.
Arguments SendControlPacket {Conn PacketFactory} syn ack fin err r s.
Arguments Run_iter {Conn PacketFactory} sel rxdone txdone s.
Arguments WaitForControlPacket {Conn PacketFactory}
  syn ack fin err timeout sel s.
Arguments receive_iter {Conn PacketFactory} sel done s.
Arguments transmit_iter Addr_String {Conn PacketFactory} env done s.

(** *** The loops

    Each loop runs its turns one after the other, over the cases its
    [select] takes or the answers of its environment, until a turn
    returns; when the list runs out the loop is still running. *)

Fixpoint receive {Conn PacketFactory : Type} (sched : list ReceiveCase)
    (done : chan.chan bool) (s : Socket Conn PacketFactory)
  : io (loop (chan.chan bool * Socket Conn PacketFactory)) :=
  match sched with
  | [] => mret (Continue (done, s))
  | sel :: rest =>
      l ← receive_iter sel done s;
      match l with
      | Continue (done', s') => receive rest done' s'
      | Return st => mret (Return st)
      end
  end.

Fixpoint transmit {Conn PacketFactory : Type} (Addr_String : Addr -> string)
    (envs : list TransmitEnv) (done : chan.chan bool)
    (s : Socket Conn PacketFactory)
  : io (loop (chan.chan bool * Socket Conn PacketFactory)) :=
  match envs with
  | [] => mret (Continue (done, s))
  | env :: rest =>
      l ← transmit_iter Addr_String env done s;
      match l with
      | Continue (done', s') => transmit Addr_String rest done' s'
      | Return st => mret (Return st)
      end
  end.

(** The loop of [Run], from the two channels it has made for the pumps. *)
Fixpoint Run {Conn PacketFactory : Type} (sched : list RunCase)
    (rxdone txdone : chan.chan bool) (s : Socket Conn PacketFactory)
  : io (loop (chan.chan bool * chan.chan bool * Socket Conn PacketFactory)) :=
  match sched with
  | [] => mret (Continue (rxdone, txdone, s))
  | sel :: rest =>
      l ← Run_iter sel rxdone txdone s;
      match l with
      | Continue (rxdone', txdone', s') => Run rest rxdone' txdone' s'
      | Return st => mret (Return st)
      end
  end.

(** The network layer delivers the packets [ps], one call of [Deliver]
    each. *)
Fixpoint Deliver_all {Conn PacketFactory : Type} (ps : list Packet)
    (s : Socket Conn PacketFactory) : io (Socket Conn PacketFactory) :=
  match ps with
  | [] => mret s
  | p :: rest => s' ← Deliver p s; Deliver_all rest s'
  end.

End socket.

(** ** Package socket, second version: the socket that owns a controller *)

Module socket_atc.

Section Socket.

(** What the file imports and does not define: [net.Conn], the network
    of package netwk with its [Send] (whose results the socket drops),
    and the packet factory of package pckfactory with its constructor,
    its [Send] and the constant [packet.MaxPayloadBytes].  The factory
    forwards every packet to the sink it was built with; the sink acts
    on the controller and, through it, on the network. *)
Variable Conn : Type.
Variable Net : Type.
Variable nw_Send : string -> Packet -> Net -> Net.
Variable MaxPayloadBytes : Z.
Variable PacketFactory : Type.

Definition World : Type := (atc.AirTrafficCtrl Net * Net)%type.
Definition Sink : Type := Packet -> World -> error * World.

Variable pckfactory_New :
  Z -> Z -> Sink -> Z -> PacketFactory * error.
Variable pf_Send :
  list Byte.byte -> PacketFactory -> World ->
  (Z * error) * PacketFactory * World.

Record Socket : Type := mkSocket {
  lAddr : Addr;
  rAddr : Addr;
  txBytes : Z;
  rxBytes : Z;
  atc : atc.AirTrafficCtrl Net;
  pf : PacketFactory;
  In : chan.chan Packet;
  application : Conn;
}.

Definition set_rxBytes (n : Z) (s : Socket) : Socket :=
  mkSocket (lAddr s) (rAddr s) (txBytes s) n (atc s) (pf s) (In s)
           (application s).

Definition set_txBytes (n : Z) (s : Socket) : Socket :=
  mkSocket (lAddr s) (rAddr s) n (rxBytes s) (atc s) (pf s) (In s)
           (application s).

Definition set_atc (a : atc.AirTrafficCtrl Net) (s : Socket) : Socket :=
  mkSocket (lAddr s) (rAddr s) (txBytes s) (rxBytes s) a (pf s) (In s)
           (application s).

Definition set_pf (f : PacketFactory) (s : Socket) : Socket :=
  mkSocket (lAddr s) (rAddr s) (txBytes s) (rxBytes s) (atc s) f (In s)
           (application s).

(** The callback [NewSocket] gives the controller: it calls the
    network and returns nothing, so it has no error to report. *)
Definition forward (ra : Addr) (p : Packet) (net : Net) : error * Net :=
  (None, nw_Send (Host ra) p net).

(** The sink [NewSocket] gives the factory: it calls the controller's
    [Send], drops what [Send] returns, and returns nil. *)
Definition sink (p : Packet) (w : World) : error * World :=
  let '(_, a, net) := atc.Send p w.1 w.2 in
  (None, (a, net)).

(** [NewSocket], up to the start of the two pumps. *)
Definition NewSocket (la ra : Addr) (c : Conn) : option Socket * error :=
  let atctrl := atc.NewAirTrafficCtrl (forward ra) in
  match pckfactory_New (uint16 (Port la)) (uint16 (Port ra)) sink
                       MaxPayloadBytes with
  | (_, Some err) =>
      (None, Some ("could not initialize new packetfactory: " +:+ err))
  | (pf0, None) =>
      (Some {| lAddr := la;
               rAddr := ra;
               txBytes := 0;
               rxBytes := 0;
               atc := atctrl;
               pf := pf0;
               In := chan.make 0;
               application := c |},
       None)
  end.

(** [Close] returns what the application's [Close] returns, [r]. *)
Definition Close (r : error) (s : Socket) : io (error * Socket) :=
  call AppClose;;
  mret (r, s).

(** One turn of the loop of [receiver], with the packet [p] that a
    sender hands over on the unbuffered channel [In]. *)
Definition receiver_iter (p : Packet) (s : Socket) : io Socket :=
  call (AtcAck (AckNo p));;
  let s1 := set_atc (atc.Ack (AckNo p) (atc s)) s in
  let s2 := set_rxBytes (uint32 (rxBytes s1 + uint32 (Length p))) s1 in
  call (AppWrite (Payload p));;
  mret s2.

(** One turn of the loop of [sender]: [rd] is what [application.Read]
    answers, the bytes read or an error.  The factory's [Send] acts on
    the factory and, through the sink, on the controller and the
    network. *)
Definition sender_iter (rd : list Byte.byte + string) (s : Socket)
    (net : Net) : io (loop (Socket * Net)) :=
  call AppRead;;
  match rd with
  | inr _ => mret (Return (s, net))
  | inl msg =>
      call (FactorySend msg);;
      match pf_Send msg (pf s) (atc s, net) with
      | ((_, Some _), f, (a, net')) =>
          mret (Return (set_pf f (set_atc a s), net'))
      | ((n, None), f, (a, net')) =>
          let s1 := set_pf f (set_atc a s) in
          mret (Continue
                  (set_txBytes (uint32 (txBytes s1 + uint32 n)) s1, net'))
      end
  end.

End Socket.

Arguments lAddr {Conn Net PacketFactory} s.
Arguments rAddr {Conn Net PacketFactory} s.
Arguments txBytes {Conn Net PacketFactory} s.
Arguments rxBytes {Conn Net PacketFactory} s.
Arguments atc {Conn Net PacketFactory} s.
Arguments pf {Conn Net PacketFactory} s.
Arguments In {Conn Net PacketFactory} s.
Arguments application {Conn Net PacketFactory} s.
Arguments forward {Net} nw_Send ra p net.
Arguments sink {Net} p w.
Arguments receiver_iter {Conn Net PacketFactory} p s.
Arguments sender_iter {Conn Net PacketFactory} pf_Send rd s net.
Arguments mkSocket {Conn Net PacketFactory}.
Arguments NewSocket {Conn Net} nw_Send MaxPayloadBytes {PacketFactory}
  pckfactory_New la ra c.
Arguments Close {Conn Net PacketFactory} r s.

(** The loop of [receiver] over the packets handed over on [In], in
    order. *)
Fixpoint receiver {Conn Net PacketFactory : Type} (ps : list Packet)
    (s : Socket Conn Net PacketFactory) : io (Socket Conn Net PacketFactory) :=
  match ps with
  | [] => mret s
  | p :: rest => s' ← receiver_iter p s; receiver rest s'
  end.

(** The loop of [sender] over the answers of [application.Read]. *)
Fixpoint sender {Conn Net PacketFactory : Type}
    (pf_Send : list Byte.byte -> PacketFactory ->
               atc.AirTrafficCtrl Net * Net ->
               (Z * error) * PacketFactory * (atc.AirTrafficCtrl Net * Net))
    (rds : list (list Byte.byte + string))
    (s : Socket Conn Net PacketFactory) (net : Net)
  : io (loop (Socket Conn Net PacketFactory * Net)) :=
  match rds with
  | [] => mret (Continue (s, net))
  | rd :: rest =>
      l ← sender_iter pf_Send rd s net;
      match l with
      | Continue (s', net') => sender pf_Send rest s' net'
      | Return st => mret (Return st)
      end
  end.

End socket_atc.

(** ** A concrete environment

    An instance of what the sockets import, to run them on explicit
    inputs: addresses in dotted-decimal IPv4 text, a connection and a
    network without state, and, for the first socket, setters and a
    factory that do nothing. *)

Module example.

Definition digit (c : ascii) : option Z :=
  let n := Z.of_nat (nat_of_ascii c) in
  if decide (48 <= n <= 57) then Some (n - 48) else None.

Fixpoint decimal (acc : Z) (s : string) : option Z :=
  match s with
  | EmptyString => Some acc
  | String c rest =>
      match digit c with
      | Some d => decimal (10 * acc + d) rest
      | None => None
      end
  end.

(** One field of a dotted-decimal address: one to three digits, no
    leading zero, at most 255. *)
Definition octet (s : string) : option Z :=
  match s with
  | EmptyString => None
  | String "0" (String _ _) => None
  | _ =>
      if decide (String.length s <= 3)%nat then
        match decimal 0 s with
        | Some v => if decide (v <= 255) then Some v else None
        | None => None
        end
      else None
  end.

(** The fields between the dots, with [cur] the field being read. *)
Fixpoint fields (cur : string) (s : string) : list string :=
  match s with
  | EmptyString => [cur]
  | String "." rest => cur :: fields EmptyString rest
  | String c rest => fields (cur +:+ String c EmptyString) rest
  end.

(** [net.ParseIP] on IPv4 text: the four bytes, or nil. *)
Definition ParseIP (s : string) : option (list Z) :=
  match fields EmptyString s with
  | [a; b; c; d] =>
      match octet a, octet b, octet c, octet d with
      | Some x, Some y, Some z, Some w => Some [x; y; z; w]
      | _, _, _, _ => None
      end
  | _ => None
  end.

Definition Network_Send (p : Packet) (nw : unit) : error * unit := (None, nw).
Definition SetIPv4 (ip : option (list Z)) (p : Packet) : Packet := p.
Definition DefaultPacketFactory (src dst : option (list Z)) (sp dp : Z)
    (fw : Packet -> unit -> error * unit) : unit := tt.
Definition Addr_String (a : Addr) : string := Host a.

Definition New (c : @socket.Config unit unit)
  : option (@socket.Socket unit unit) * error :=
  socket.New ParseIP Network_Send SetIPv4 SetIPv4 DefaultPacketFactory c.

Definition local : Addr := {| Host := "127.0.0.1"; Port := 4000 |}.
Definition remote : Addr := {| Host := "10.0.0.2"; Port := 5000 |}.
Definition bad_remote : Addr := {| Host := "not-an-ip"; Port := 5000 |}.

Definition config (ra : Addr) : @socket.Config unit unit :=
  socket.mkConfig (Some local) (Some ra) (Some tt) (Some tt).

(** The socket [New] builds for [config ra]. *)
Definition fresh (ra : Addr) : @socket.Socket unit unit :=
  socket.mkSocket local ra 0 0 tt tt (chan.make 100) (chan.make 1).

(** A socket that has received [rx] bytes and has [ps] waiting. *)
Definition receiving (rx : Z) (ps : list Packet) : @socket.Socket unit unit :=
  socket.mkSocket local remote 0 rx tt tt
    (chan.mk ps 100 false) (chan.make 1).

Definition hello : list Byte.byte := [Byte.x68; Byte.x69].

(** The network delivers the packets [ps] one by one and the receive pump
    takes each as it comes: [Deliver], then one turn of [receive]. *)
Fixpoint deliver_and_receive (ps : list Packet) (done : chan.chan bool)
    (s : @socket.Socket unit unit) : io (@socket.Socket unit unit) :=
  match ps with
  | [] => mret s
  | p :: rest =>
      s1 ← socket.Deliver p s;
      l ← socket.receive_iter socket.CaseInbound done s1;
      deliver_and_receive rest done (loop_state l).2
  end.

(** A packet whose length field is the largest a 16-bit field holds. *)
Definition jumbo : Packet :=
  packet.mkPacket 5000 4000 65535 0 0 0 false false false false [].

(** Modelled from the spec: the packet factory of package pckfactory is
    not among the sources.  It keeps its ports, the sequence number of the
    next byte of the stream and the largest payload.  [Send] cuts the
    message into chunks of at most that size, numbers each chunk by the
    offset of its first byte, hands each packet to the sink, and returns
    the number of bytes handed over and the first error of the sink.  (The
    limit on the size of one message is left out.) *)
Record Factory : Type := mkFactory {
  srcPort : Z;
  dstPort : Z;
  seq : Z;
  maxPayload : nat;
}.

Fixpoint send_chunks {W : Type} (sink : Packet -> W -> error * W)
    (fuel : nat) (msg : list Byte.byte) (sent : Z) (f : Factory) (w : W)
  : (Z * error) * Factory * W :=
  match fuel, msg with
  | _, [] => ((sent, None), f, w)
  | O, _ => ((sent, None), f, w)
  | S fuel', _ =>
      let chunk := take (maxPayload f) msg in
      let n := Z.of_nat (length chunk) in
      let p := packet.mkPacket (srcPort f) (dstPort f) n 0 (seq f) 0
                 false false false false chunk in
      match sink p w with
      | (Some e, w') => ((sent, Some e), f, w')
      | (None, w') =>
          send_chunks sink fuel' (drop (maxPayload f) msg) (sent + n)
            (mkFactory (srcPort f) (dstPort f) (uint32 (seq f + n))
                       (maxPayload f)) w'
      end
  end.

Definition pf_Send {W : Type} (sink : Packet -> W -> error * W)
    (msg : list Byte.byte) (f : Factory) (w : W)
  : (Z * error) * Factory * W :=
  send_chunks sink (length msg) msg 0 f w.

(** A socket of the second version whose network answers [ok], with the
    packets [ps] in flight. *)
Definition established (ok : Packet -> error) (ps : list Packet)
  : @socket_atc.Socket unit (list Packet) Factory :=
  socket_atc.mkSocket local remote 0 0
    (atc.mkATC atc.defaultAckWaitTime (atc.recording ok)
       (list_to_map ((fun p => (SeqNo p, p)) <$> ps)))
    (mkFactory 4000 5000 0 1460) (chan.make 0) tt.

(** Modelled from the spec: package netwk is not among the sources.  By the
    transmit sink contract the network's [Send] returns success or a
    transport-level error.  This network is down: every [Send] fails and
    transmits nothing. *)
Definition netwk_Send_down (host : string) (p : Packet)
    (sent : list Packet) : error * list Packet :=
  (Some "network is down", sent).

(** What the callback of [NewSocket] keeps of a call of the network's
    [Send]: its effect on the network, not its result. *)
Definition dropping_result {Net : Type}
    (send : string -> Packet -> Net -> error * Net)
    (host : string) (p : Packet) (net : Net) : Net :=
  (send host p net).2.

(** Modelled from the spec: the constructor of the packet factory, which
    is not among the sources; it keeps the ports and the largest payload
    and starts at sequence number 0. *)
Definition pckfactory_New (sp dp : Z) (sink : socket_atc.Sink (list Packet))
    (m : Z) : Factory * error :=
  (mkFactory sp dp 0 (Z.to_nat m), None).

(** The socket [NewSocket] builds over the network that is down. *)
Definition built : @socket_atc.Socket unit (list Packet) Factory :=
  socket_atc.mkSocket local remote 0 0
    (atc.NewAirTrafficCtrl
       (socket_atc.forward (dropping_result netwk_Send_down) remote))
    (mkFactory 4000 5000 0 1460) (chan.make 0) tt.

End example.

(** * Properties *)

(** ** Machine integers *)

Lemma uint32_range z : 0 <= uint32 z < 2 ^ 32.
Proof. unfold uint32. apply Z.mod_pos_bound. lia. Qed.

Lemma uint32_small z : 0 <= z < 2 ^ 32 -> uint32 z = z.
Proof. intros H. unfold uint32. by apply Z.mod_small. Qed.

(** ** The controller *)

Section ControllerFacts.

Context {Net : Type}.
Implicit Types (a : atc.AirTrafficCtrl Net) (pck : Packet) (net : Net).
Implicit Types (n m : Z).

(** [Send] always ends with the packet registered, whatever the callback
    answers. *)
Lemma Send_state pck a net :
  (atc.Send pck a net).1.2 = atc.register pck a.
Proof.
  unfold atc.Send.
  destruct (atc.fwFunc (atc.register pck a) pck net) as [[err|] net']; done.
Qed.

Lemma Send_error pck a net :
  (atc.Send pck a net).1.1 =
    match (atc.fwFunc a pck net).1 with
    | Some err => Some ("could not send packet: " +:+ err)
    | None => None
    end.
Proof.
  unfold atc.Send. simpl.
  destruct (atc.fwFunc a pck net) as [[err|] net']; done.
Qed.

Lemma Send_net pck a net :
  (atc.Send pck a net).2 = (atc.fwFunc a pck net).2.
Proof.
  unfold atc.Send. simpl.
  destruct (atc.fwFunc a pck net) as [[err|] net']; done.
Qed.

Lemma register_lookup pck a :
  atc.inFlight (atc.register pck a) !! SeqNo pck = Some pck.
Proof. simpl. apply lookup_insert_eq. Qed.

Lemma register_lookup_ne pck a m :
  m ≠ SeqNo pck ->
  atc.inFlight (atc.register pck a) !! m = atc.inFlight a !! m.
Proof. intros Hne. simpl. by apply lookup_insert_ne. Qed.

Lemma Ack_lookup n a : atc.inFlight (atc.Ack n a) !! n = None.
Proof. simpl. apply lookup_delete_eq. Qed.

Lemma Ack_lookup_ne n m a :
  m ≠ n -> atc.inFlight (atc.Ack n a) !! m = atc.inFlight a !! m.
Proof. intros Hne. simpl. by apply lookup_delete_ne. Qed.

Lemma Ack_absent n a : atc.inFlight a !! n = None -> atc.Ack n a = a.
Proof.
  intros Hn. destruct a as [w fw fl]. unfold atc.Ack. simpl in *.
  by rewrite delete_id.
Qed.

(** The callback and the wait never change. *)
Lemma step_fwFunc (st : atc.AirTrafficCtrl Net * Net) e :
  atc.fwFunc (atc.step st e).1 = atc.fwFunc st.1.
Proof.
  destruct e as [pck|n|d]; simpl; try done.
  pose proof (Send_state pck st.1 st.2) as Hs.
  destruct (atc.Send pck st.1 st.2) as [[err a'] net']. simpl in *.
  by subst a'.
Qed.

Lemma run_snoc es e (st : atc.AirTrafficCtrl Net * Net) :
  atc.run (es ++ [e]) st = atc.step (atc.run es st) e.
Proof. unfold atc.run. by rewrite fold_left_app. Qed.

Lemma run_fwFunc es (st : atc.AirTrafficCtrl Net * Net) :
  atc.fwFunc (atc.run es st).1 = atc.fwFunc st.1.
Proof.
  induction es as [|e es IH] using rev_ind; [done|].
  by rewrite run_snoc, step_fwFunc.
Qed.

(** A sequence number that no [Send] of a history carried is not in
    flight after the history, from the empty map of the constructor. *)
Lemma run_never_sent es fw net n :
  (forall pck, atc.EvSend pck ∈ es -> SeqNo pck ≠ n) ->
  atc.inFlight (atc.run es (atc.NewAirTrafficCtrl fw, net)).1 !! n = None.
Proof.
  induction es as [|e es IH] using rev_ind; intros Hes.
  - simpl. apply lookup_empty.
  - rewrite run_snoc.
    assert (IH' : atc.inFlight
              (atc.run es (atc.NewAirTrafficCtrl fw, net)).1 !! n = None).
    { apply IH. intros pck Hin. apply Hes. set_solver. }
    destruct e as [pck|k|d]; simpl.
    + pose proof (Send_state pck (atc.run es (atc.NewAirTrafficCtrl fw, net)).1
                    (atc.run es (atc.NewAirTrafficCtrl fw, net)).2) as Hs.
      destruct (atc.Send pck _ _) as [[err a'] net']. simpl in *. subst a'.
      simpl. rewrite lookup_insert_ne; [done|].
      apply Hes. set_solver.
    + destruct (decide (k = n)) as [->|Hne].
      * apply lookup_delete_eq.
      * by rewrite lookup_delete_ne.
    + done.
Qed.

End ControllerFacts.

Lemma sends_app (es es' : list atc.Event) :
  atc.sends (es ++ es') = atc.sends es ++ atc.sends es'.
Proof. unfold atc.sends. apply omap_app. Qed.

(** With a network that records what the callback is given, a history of
    calls and waits transmits exactly the packets of its [Send] calls, in
    order: time that passes transmits nothing. *)
Lemma run_transmits_sends ok es w fl (log : list Packet) :
  (atc.run es (atc.mkATC w (atc.recording ok) fl, log)).2
  = log ++ atc.sends es.
Proof.
  induction es as [|e es IH] using rev_ind.
  - simpl. by rewrite app_nil_r.
  - rewrite run_snoc, sends_app.
    pose proof (run_fwFunc es (atc.mkATC w (atc.recording ok) fl, log)) as Hfw.
    destruct (atc.run es (atc.mkATC w (atc.recording ok) fl, log))
      as [a l] eqn:Hrun.
    simpl in *. subst l.
    destruct e as [pck|k|d]; simpl.
    + pose proof (Send_net pck a (log ++ atc.sends es)) as Hn.
      destruct (atc.Send pck a _) as [[err a'] net']. simpl in *.
      rewrite Hn, Hfw. unfold atc.recording. simpl. by rewrite app_assoc.
    + by rewrite app_nil_r.
    + by rewrite app_nil_r.
Qed.

(** Time that passes without a call leaves the controller and the network
    as they are. *)
Lemma run_app {Net : Type} es es' (st : atc.AirTrafficCtrl Net * Net) :
  atc.run (es ++ es') st = atc.run es' (atc.run es st).
Proof. unfold atc.run. apply fold_left_app. Qed.

Lemma run_elapse {Net : Type} es (st : atc.AirTrafficCtrl Net * Net) :
  Forall atc.is_elapse es -> atc.run es st = st.
Proof.
  intros Hes. revert st.
  induction Hes as [|e es He _ IH]; intros st; [done|].
  destruct e; try done. simpl. apply IH.
Qed.

(** C1 (the code departs from the claim).  When the transmit callback
    fails, [Send] does return a send error to its caller, but the in-flight
    map afterwards still holds the packet under its sequence number: the
    registration made at the start of [Send] is not rolled back. *)
Theorem C1_failed_Send_stays_registered
    {Net : Type} (a : atc.AirTrafficCtrl Net) (pck : Packet) (net : Net)
    (msg : string) :
  (atc.fwFunc a pck net).1 = Some msg ->
  (atc.Send pck a net).1.1 = Some ("could not send packet: " +:+ msg)
  /\ atc.inFlight (atc.Send pck a net).1.2 !! SeqNo pck = Some pck.
Proof.
  intros Hfail. split.
  - by rewrite Send_error, Hfail.
  - rewrite Send_state. apply register_lookup.
Qed.

Lemma C1_failed_Send_stays_registered_witness :
  let a0 := atc.NewAirTrafficCtrl (atc.recording atc.always_down) in
  let p5 := packet.data 5 0 [] in
  (atc.fwFunc a0 p5 []).1 = Some "network is down"
  /\ (atc.Send p5 a0 []).1.1 = Some "could not send packet: network is down"
  /\ atc.inFlight (atc.Send p5 a0 []).1.2 !! 5 = Some p5.
Proof.
  intros a0 p5. split; [reflexivity|].
  apply (C1_failed_Send_stays_registered a0 p5 [] "network is down").
  reflexivity.
Defined.

(** C2 (the code departs from the claim).  After a successful [Send] of a
    packet, however much time passes without an [Ack], the transmit
    callback has been invoked exactly once, with that packet, and the entry
    is still in flight: the controller arms no timer and never resends. *)
Theorem C2_no_timer_no_retransmission (pck : Packet) (es : list atc.Event) :
  Forall atc.is_elapse es ->
  let st := atc.run (atc.EvSend pck :: es)
              (atc.NewAirTrafficCtrl (atc.recording atc.always_ok), []) in
  st.2 = [pck] /\ atc.inFlight st.1 !! SeqNo pck = Some pck.
Proof.
  intros Hes st. subst st. split.
  - unfold atc.NewAirTrafficCtrl.
    rewrite run_transmits_sends. simpl.
    replace (atc.sends es) with (@nil Packet); [done|].
    induction Hes as [|e es' He _ IH]; [done|].
    destruct e; try done.
  - change (atc.EvSend pck :: es) with ([atc.EvSend pck] ++ es).
    rewrite run_app, run_elapse by done.
    simpl. apply lookup_insert_eq.
Qed.

Lemma C2_no_timer_no_retransmission_witness :
  let p5 := packet.data 5 0 [] in
  let es := [atc.EvElapse (10 * atc.defaultAckWaitTime)] in
  let st := atc.run (atc.EvSend p5 :: es)
              (atc.NewAirTrafficCtrl (atc.recording atc.always_ok), []) in
  Forall atc.is_elapse es /\ st.2 = [p5] /\ atc.inFlight st.1 !! 5 = Some p5.
Proof.
  intros p5 es st. split.
  - repeat constructor.
  - apply (C2_no_timer_no_retransmission p5 es). repeat constructor.
Defined.

(** C3.  [Send] of a packet with sequence number [n] followed by [Ack n]
    leaves no entry for [n]; [Ack n] when [n] has no entry leaves the
    controller unchanged, which is the case when [n] was never sent since
    the controller was made and when [n] has just been acknowledged.  [Ack]
    is a total function with no error result. *)
Theorem C3_Send_then_Ack_and_idle_Ack {Net : Type} :
  (forall (pck : Packet) (a : atc.AirTrafficCtrl Net) (net : Net),
     atc.inFlight (atc.Ack (SeqNo pck) (atc.Send pck a net).1.2)
       !! SeqNo pck = None)
  /\ (forall (n : Z) (a : atc.AirTrafficCtrl Net),
        atc.inFlight a !! n = None -> atc.Ack n a = a)
  /\ (forall (n : Z) fw (net : Net) (es : list atc.Event),
        (forall pck, atc.EvSend pck ∈ es -> SeqNo pck ≠ n) ->
        let a := (atc.run es (atc.NewAirTrafficCtrl fw, net)).1 in
        atc.Ack n a = a)
  /\ (forall (n : Z) (a : atc.AirTrafficCtrl Net),
        atc.Ack n (atc.Ack n a) = atc.Ack n a).
Proof.
  repeat split.
  - intros pck a net. apply Ack_lookup.
  - intros n a. apply Ack_absent.
  - intros n fw net es Hes a. apply Ack_absent. by apply run_never_sent.
  - intros n a. apply Ack_absent, Ack_lookup.
Qed.

Lemma C3_Send_then_Ack_and_idle_Ack_witness :
  let a0 := atc.NewAirTrafficCtrl (atc.recording atc.always_ok) in
  let p5 := packet.data 5 0 [] in
  let a1 := (atc.Send p5 a0 []).1.2 in
  atc.inFlight (atc.Ack 5 a1) !! 5 = None
  /\ (atc.inFlight a1 !! 7 = None /\ atc.Ack 7 a1 = a1)
  /\ atc.Ack 7 (atc.run [atc.EvSend p5; atc.EvAck 9] (a0, [])).1
     = (atc.run [atc.EvSend p5; atc.EvAck 9] (a0, [])).1.
Proof.
  intros a0 p5 a1.
  destruct (@C3_Send_then_Ack_and_idle_Ack (list Packet))
    as (Hsa & Hidle & Hnever & _).
  split; [exact (Hsa p5 a0 [])|].
  split.
  - split; [reflexivity|]. apply (Hidle 7 a1). reflexivity.
  - apply (Hnever 7 (atc.recording atc.always_ok) []
             [atc.EvSend p5; atc.EvAck 9]).
    intros pck Hin.
    apply list_elem_of_In in Hin. simpl in Hin.
    destruct Hin as [Heq|[Heq|[]]]; [|discriminate].
    injection Heq as <-. simpl. lia.
Defined.

(** C9.  For sequence numbers [m ≠ n], [Ack n] and [Send] of a packet
    numbered [n] leave the entry for [m] (present or absent, and the packet
    stored) as it was. *)
Theorem C9_frame {Net : Type} (a : atc.AirTrafficCtrl Net) (m n : Z) :
  m ≠ n ->
  atc.inFlight (atc.Ack n a) !! m = atc.inFlight a !! m
  /\ (forall (pck : Packet) (net : Net),
        SeqNo pck = n ->
        atc.inFlight (atc.Send pck a net).1.2 !! m = atc.inFlight a !! m).
Proof.
  intros Hne. split.
  - by apply Ack_lookup_ne.
  - intros pck net <-. rewrite Send_state. by apply register_lookup_ne.
Qed.

Lemma C9_frame_witness :
  let a0 := atc.NewAirTrafficCtrl (atc.recording atc.always_ok) in
  let p5 := packet.data 5 0 [] in
  let p6 := packet.data 6 0 [] in
  let a1 := (atc.Send p5 a0 []).1.2 in
  (5:Z) ≠ 6
  /\ atc.inFlight (atc.Ack 6 a1) !! 5 = Some p5
  /\ atc.inFlight (atc.Send p6 a1 []).1.2 !! 5 = Some p5.
Proof.
  intros a0 p5 p6 a1.
  assert (Hne : (5:Z) ≠ 6) by lia.
  destruct (C9_frame a1 5 6 Hne) as [Hack Hsend].
  split; [exact Hne|]. split.
  - rewrite Hack. reflexivity.
  - rewrite (Hsend p6 [] eq_refl). reflexivity.
Defined.

(** ** The first socket: construction, shutdown, handshake wait *)

Section SocketFacts.

Context {IP Conn NetworkLayer PacketFactory : Type}.
Context (ParseIP : string -> option IP).
Context (Network_Send : Packet -> NetworkLayer -> error * NetworkLayer).
Context (SetSourceIPv4 SetDestinationIPv4 : option IP -> Packet -> Packet).
Context (DefaultPacketFactory :
           option IP -> option IP -> Z -> Z ->
           (Packet -> NetworkLayer -> error * NetworkLayer) -> PacketFactory).

Local Abbreviation New :=
  (@socket.New IP ParseIP Conn NetworkLayer Network_Send SetSourceIPv4
               SetDestinationIPv4 PacketFactory DefaultPacketFactory).
Local Abbreviation Socket := (@socket.Socket Conn PacketFactory).

(** [New] refuses a configuration without a local address or with a
    local host that does not parse, and one without a remote address. *)
Lemma New_no_local c :
  socket.LocalAddr c = None -> New c = (None, Some "invalid local address").
Proof. intros H. unfold socket.New. by rewrite H. Qed.

Lemma New_bad_local c la :
  socket.LocalAddr c = Some la -> ParseIP (Host la) = None ->
  New c = (None, Some "invalid local address").
Proof. intros H1 H2. unfold socket.New. by rewrite H1, H2. Qed.

Lemma New_no_remote c la ip :
  socket.LocalAddr c = Some la -> ParseIP (Host la) = Some ip ->
  socket.RemoteAddr c = None ->
  New c = (None, Some "remote address cannot be nil").
Proof. intros H1 H2 H3. unfold socket.New. by rewrite H1, H2, H3. Qed.

(** With a valid local address, a remote address, an application and a
    network, [New] succeeds whatever the remote host is. *)
Lemma New_remote_host_unchecked la ra app nw ip :
  ParseIP (Host la) = Some ip ->
  exists s : Socket,
    New (socket.mkConfig (Some la) (Some ra) (Some app) (Some nw))
    = (Some s, None)
    /\ socket.lAddr s = la /\ socket.rAddr s = ra
    /\ socket.txBytes s = 0 /\ socket.rxBytes s = 0
    /\ socket.inbound s = chan.make 100
    /\ socket.shutdown s = chan.make 1.
Proof.
  intros Hl. unfold socket.New. simpl. rewrite Hl.
  eexists. split; [reflexivity|]. simpl. done.
Qed.

(** [Close] on a socket whose shutdown channel is already closed. *)
Lemma Close_closed (s : Socket) :
  chan.closed (socket.shutdown s) = true ->
  socket.Close s = ([], Panic "send on closed channel").
Proof.
  intros Hc. unfold socket.Close, chan.send. rewrite Hc. reflexivity.
Qed.

(** [Close] on a socket whose shutdown channel is open with room. *)
Lemma Close_open (s : Socket) :
  chan.closed (socket.shutdown s) = false ->
  (length (chan.buf (socket.shutdown s)) < chan.cap (socket.shutdown s))%nat ->
  socket.Close s =
    ([AppClose],
     Done (socket.set_shutdown Conn PacketFactory
             (chan.mk (chan.buf (socket.shutdown s) ++ [true])
                      (chan.cap (socket.shutdown s)) true) s)).
Proof.
  intros Hc Hroom. unfold socket.Close, chan.send. rewrite Hc.
  destruct (decide _) as [_|Hn]; [|done].
  cbn. unfold chan.close. cbn. reflexivity.
Qed.

End SocketFacts.

(** C7 (the code departs from the claim).  [New] returns an address error
    and no socket when the local address is missing or its host does not
    parse, and when the remote address is missing; but the test that should
    read the remote host reads the local host again, so a configuration
    whose remote host does not parse, and which is otherwise complete,
    yields a socket and no error. *)
Theorem C7_New_accepts_unparseable_remote_host
    {IP Conn NetworkLayer PacketFactory : Type}
    (ParseIP : string -> option IP) Network_Send Set1 Set2
    (DefaultPacketFactory :
       option IP -> option IP -> Z -> Z ->
       (Packet -> NetworkLayer -> error * NetworkLayer) -> PacketFactory)
    (la ra : Addr) (app : Conn) (nw : NetworkLayer) (ip : IP) :
  ParseIP (Host la) = Some ip ->
  ParseIP (Host ra) = None ->
  exists s,
    socket.New ParseIP Network_Send Set1 Set2 DefaultPacketFactory
      (socket.mkConfig (Some la) (Some ra) (Some app) (Some nw))
    = (Some s, None)
    /\ socket.rAddr s = ra.
Proof.
  intros Hl _.
  destruct (New_remote_host_unchecked ParseIP Network_Send Set1 Set2
              DefaultPacketFactory la ra app nw ip Hl)
    as (s & Hnew & _ & Hra & _).
  by exists s.
Qed.

Lemma C7_New_accepts_unparseable_remote_host_witness :
  example.ParseIP "127.0.0.1" = Some [127; 0; 0; 1]
  /\ example.ParseIP "not-an-ip" = None
  /\ exists s,
       example.New (example.config example.bad_remote) = (Some s, None)
       /\ socket.rAddr s = example.bad_remote.
Proof.
  split; [reflexivity|]. split; [reflexivity|].
  apply (C7_New_accepts_unparseable_remote_host
           example.ParseIP example.Network_Send example.SetIPv4
           example.SetIPv4 example.DefaultPacketFactory
           example.local example.bad_remote tt tt [127; 0; 0; 1]);
    reflexivity.
Defined.

(** C10.  [Close] is not idempotent.  On a socket whose shutdown channel is
    open and has room (as [New] leaves it), the first call queues the
    shutdown signal, closes the shutdown channel and then closes the
    application stream; a second call on the resulting socket panics with
    a send on a closed channel, before it reaches the application.  The
    same holds once the run loop has taken the signal: any socket with a
    closed shutdown channel panics in [Close]. *)
Theorem C10_Close_not_idempotent {Conn PacketFactory : Type}
    (s : @socket.Socket Conn PacketFactory) :
  chan.closed (socket.shutdown s) = false ->
  (length (chan.buf (socket.shutdown s)) < chan.cap (socket.shutdown s))%nat ->
  exists s1,
    socket.Close s = ([AppClose], Done s1)
    /\ chan.buf (socket.shutdown s1) = chan.buf (socket.shutdown s) ++ [true]
    /\ chan.closed (socket.shutdown s1) = true
    /\ socket.Close s1 = ([], Panic "send on closed channel")
    /\ (forall s2 : @socket.Socket Conn PacketFactory,
          chan.closed (socket.shutdown s2) = true ->
          socket.Close s2 = ([], Panic "send on closed channel")).
Proof.
  intros Hc Hroom. eexists. split; [by apply Close_open|].
  split; [reflexivity|]. split; [reflexivity|].
  split; [by apply Close_closed|].
  intros s2. apply Close_closed.
Qed.

Lemma C10_Close_not_idempotent_witness :
  exists s1,
    socket.Close (example.fresh example.remote) = ([AppClose], Done s1)
    /\ chan.buf (socket.shutdown s1) = [true]
    /\ chan.closed (socket.shutdown s1) = true
    /\ socket.Close s1 = ([], Panic "send on closed channel").
Proof.
  destruct (C10_Close_not_idempotent (example.fresh example.remote))
    as (s1 & H1 & H2 & H3 & H4 & _).
  - reflexivity.
  - simpl. lia.
  - exists s1. by repeat split.
Defined.

(** ** The handshake wait *)

Lemma recv_cons {A : Type} (c : chan.chan A) (x : A) (rest : list A) :
  chan.buf c = x :: rest ->
  chan.recv c = chan.Value x (chan.mk rest (chan.cap c) (chan.closed c)).
Proof. intros H. unfold chan.recv. by rewrite H. Qed.

Lemma recv_empty_open {A : Type} (c : chan.chan A) :
  chan.buf c = [] -> chan.closed c = false -> chan.recv c = chan.NotReady.
Proof. intros H1 H2. unfold chan.recv. by rewrite H1, H2. Qed.

Lemma recv_Value_inv {A : Type} (c c' : chan.chan A) (x : A) :
  chan.recv c = chan.Value x c' ->
  chan.buf c = x :: chan.buf c'.
Proof.
  unfold chan.recv. destruct (chan.buf c) as [|y rest] eqn:Hb.
  - destruct (chan.closed c); discriminate.
  - intros [= -> <-]. reflexivity.
Qed.

(** The comparison accepts exactly the packets with the requested flags. *)
Lemma check_flags_None syn ack fin err p :
  socket.check_flags syn ack fin err p = None
  <-> socket.flags_are syn ack fin err p.
Proof.
  unfold socket.check_flags, socket.flags_are.
  destruct syn, ack, fin, err, (IsSYN p), (IsACK p), (IsFIN p), (IsERR p);
    simpl; split; intros H; try done; try (by destruct H as (?&?&?&?)).
Qed.

(** A refusal names a flag that differs, with the two values. *)
Lemma check_flags_Some syn ack fin err p e :
  socket.check_flags syn ack fin err p = Some e ->
  exists flag want got,
    (flag, want, got) ∈
      [("SYN", syn, IsSYN p); ("ACK", ack, IsACK p);
       ("FIN", fin, IsFIN p); ("ERR", err, IsERR p)]
    /\ want ≠ got
    /\ e = socket.mismatch flag want got.
Proof.
  unfold socket.check_flags.
  destruct (Bool.eqb syn (IsSYN p)) eqn:H1; simpl.
  2:{ intros [= <-]. exists "SYN", syn, (IsSYN p).
      split; [set_solver|]. split; [|reflexivity].
      intros Heq. rewrite <- Heq, Bool.eqb_reflx in H1. discriminate. }
  destruct (Bool.eqb ack (IsACK p)) eqn:H2; simpl.
  2:{ intros [= <-]. exists "ACK", ack, (IsACK p).
      split; [set_solver|]. split; [|reflexivity].
      intros Heq. rewrite <- Heq, Bool.eqb_reflx in H2. discriminate. }
  destruct (Bool.eqb fin (IsFIN p)) eqn:H3; simpl.
  2:{ intros [= <-]. exists "FIN", fin, (IsFIN p).
      split; [set_solver|]. split; [|reflexivity].
      intros Heq. rewrite <- Heq, Bool.eqb_reflx in H3. discriminate. }
  destruct (Bool.eqb err (IsERR p)) eqn:H4; simpl.
  2:{ intros [= <-]. exists "ERR", err, (IsERR p).
      split; [set_solver|]. split; [|reflexivity].
      intros Heq. rewrite <- Heq, Bool.eqb_reflx in H4. discriminate. }
  discriminate.
Qed.

(** C6.  For every requested combination of flags and every timeout: when
    the select takes a packet [p], the first of the inbound queue, the call
    consumes it and returns success if and only if the four flags of [p]
    are the requested ones, and otherwise a mismatch error that names a
    flag that differs; the call returns success in no other way; and when
    no packet has arrived (the queue is empty and open) the receive cannot
    be taken, and the timer case returns the timeout error. *)
Theorem C6_WaitForControlPacket {Conn PacketFactory : Type}
    (s : @socket.Socket Conn PacketFactory)
    (syn ack fin err : bool) (timeout : Z) :
  (forall p rest,
     chan.buf (socket.inbound s) = p :: rest ->
     exists r s',
       socket.WaitForControlPacket syn ack fin err timeout
         socket.CaseInboundW s = ([], Done (r, s'))
       /\ chan.buf (socket.inbound s') = rest
       /\ (r = None <-> socket.flags_are syn ack fin err p)
       /\ (forall e, r = Some e ->
             exists flag want got,
               (flag, want, got) ∈
                 [("SYN", syn, IsSYN p); ("ACK", ack, IsACK p);
                  ("FIN", fin, IsFIN p); ("ERR", err, IsERR p)]
               /\ want ≠ got
               /\ e = socket.mismatch flag want got))
  /\ (forall sel t s',
        socket.WaitForControlPacket syn ack fin err timeout sel s
        = (t, Done (None, s')) ->
        exists p rest,
          sel = socket.CaseInboundW
          /\ chan.buf (socket.inbound s) = p :: rest
          /\ socket.flags_are syn ack fin err p)
  /\ socket.WaitForControlPacket syn ack fin err timeout
       socket.CaseTimeout s = ([], Done (Some "operation timed out", s))
  /\ (chan.buf (socket.inbound s) = [] ->
      chan.closed (socket.inbound s) = false ->
      socket.WaitForControlPacket syn ack fin err timeout
        socket.CaseInboundW s = ([], Blocked)).
Proof.
  repeat split.
  - intros p rest Hbuf.
    exists (socket.check_flags syn ack fin err p).
    eexists. unfold socket.WaitForControlPacket.
    rewrite (recv_cons _ _ _ Hbuf). split; [reflexivity|].
    split; [reflexivity|]. split.
    + apply check_flags_None.
    + intros e. apply check_flags_Some.
  - intros sel t s' Hw. unfold socket.WaitForControlPacket in Hw.
    destruct sel; [|discriminate].
    destruct (chan.recv (socket.inbound s)) as [p ch| |] eqn:Hr;
      try discriminate.
    injection Hw as _ Hc _.
    exists p, (chan.buf ch). split; [reflexivity|].
    split; [by apply recv_Value_inv|]. by apply check_flags_None.
  - intros Hb Hc. unfold socket.WaitForControlPacket.
    by rewrite recv_empty_open.
Qed.

Lemma C6_WaitForControlPacket_witness :
  let synack := packet.control true true false false in
  let s := example.receiving 0 [synack] in
  (exists s',
     socket.WaitForControlPacket true true false false 1000
       socket.CaseInboundW s = ([], Done (None, s'))
     /\ chan.buf (socket.inbound s') = [])
  /\ (exists s',
        socket.WaitForControlPacket true false false false 1000
          socket.CaseInboundW s
        = ([], Done (Some (socket.mismatch "ACK" false true), s')))
  /\ socket.WaitForControlPacket true true false false 1000
       socket.CaseInboundW (example.fresh example.remote) = ([], Blocked).
Proof.
  intros synack s. split; [|split].
  - destruct (C6_WaitForControlPacket s true true false false 1000)
      as (Hrecv & _).
    destruct (Hrecv synack [] eq_refl) as (r & s' & Hw & Hb & Hok & _).
    exists s'. split; [|exact Hb].
    rewrite Hw. do 3 f_equal. apply Hok. by repeat split.
  - exists (socket.set_inbound unit unit (chan.mk [] 100 false) s).
    reflexivity.
  - destruct (C6_WaitForControlPacket (example.fresh example.remote)
                true true false false 1000) as (_ & _ & _ & Hblocked).
    apply Hblocked; reflexivity.
Defined.

(** ** The pumps of the first socket *)

Ltac io_unfold :=
  unfold mbind, mret, io_bind, io_ret, bind, ret, call, lift in *.

Section PumpFacts.

Context {Conn PacketFactory : Type}.
Implicit Types (s : @socket.Socket Conn PacketFactory).
Implicit Types (done : chan.chan bool).

(** The two ways a turn of [receive] ends normally. *)
Lemma receive_iter_Done sel done s t l :
  socket.receive_iter sel done s = (t, Done l) ->
  (sel = socket.CaseDone /\ t = []
   /\ exists done' ch,
        chan.close (socket.inbound s) = Done ch
        /\ l = Return (done', socket.set_inbound Conn PacketFactory ch s))
  \/ (sel = socket.CaseInbound
      /\ exists p ch,
           chan.recv (socket.inbound s) = chan.Value p ch
           /\ t = [AppWrite (Payload p)]
           /\ l = Continue
                    (done,
                     socket.set_rxBytes Conn PacketFactory
                       (uint32 (socket.rxBytes s + uint32 (Length p)))
                       (socket.set_inbound Conn PacketFactory ch s))).
Proof.
  unfold socket.receive_iter. destruct sel.
  - intros H. left. split; [reflexivity|].
    destruct (chan.recv done) as [b done'| |]; io_unfold;
      destruct (chan.close (socket.inbound s)) as [ch| |] eqn:Hc;
      simpl in H; try discriminate; injection H as <- <-;
      (split; [reflexivity|]); eauto.
  - intros H. right. split; [reflexivity|].
    destruct (chan.recv (socket.inbound s)) as [p ch| |]; io_unfold;
      simpl in H; try discriminate.
    injection H as <- <-. exists p, ch. done.
Qed.

(** The ways a turn of [transmit] ends normally: it returns or goes round
    with the socket as it was, or it returns with the shutdown signal
    queued, or it goes round with the transmit counter advanced. *)
Lemma transmit_iter_Done Addr_String env done s t l :
  socket.transmit_iter Addr_String env done s = (t, Done l) ->
  (loop_state l).2 = s
  \/ (exists sh, socket.readErr env = Some socket.EOF
                 /\ (loop_state l).2
                    = socket.set_shutdown Conn PacketFactory sh s)
  \/ (socket.readErr env = None /\ socket.packErr env = None
      /\ l = Continue
               (done,
                socket.set_txBytes Conn PacketFactory
                  (uint32 (socket.txBytes s + uint32 (socket.packN env))) s)).
Proof.
  unfold socket.transmit_iter.
  destruct (chan.recv done) as [b done'| |]; io_unfold; simpl.
  - intros [= <- <-]. by left.
  - intros [= <- <-]. by left.
  - destruct (socket.readErr env) as [[|msg]|] eqn:Hr; simpl.
    + destruct (chan.send true (socket.shutdown s)) as [sh| |];
        simpl; try discriminate.
      intros [= <- <-]. right. left. by exists sh.
    + intros [= <- <-]. by left.
    + destruct (socket.packErr env) as [e|] eqn:Hp; simpl.
      * intros [= <- <-]. by left.
      * intros [= <- <-]. right. right. done.
Qed.

End PumpFacts.

(** A 32-bit counter that does not overflow does not decrease. *)
Lemma uint32_add_mono x n :
  0 <= x -> x + uint32 n < 2 ^ 32 -> x <= uint32 (x + uint32 n).
Proof.
  intros Hx Hlt. pose proof (uint32_range n).
  rewrite uint32_small; lia.
Qed.

(** One delivery and one turn of the receive pump, on a socket with an
    empty queue. *)
Lemma deliver_and_receive_replicate (n : nat) (p : Packet) done (rx : Z) :
  0 <= rx < 2 ^ 32 ->
  example.deliver_and_receive (replicate n p) done (example.receiving rx [])
  = (replicate n (AppWrite (Payload p)),
     Done (example.receiving
             (uint32 (rx + Z.of_nat n * uint32 (Length p))) [])).
Proof.
  revert rx. induction n as [|n IH]; intros rx Hrx.
  - simpl. rewrite Z.add_0_r, uint32_small by done. reflexivity.
  - cbn [replicate example.deliver_and_receive].
    pose proof (uint32_range (rx + uint32 (Length p))) as Hrx'.
    specialize (IH _ Hrx').
    change (socket.Deliver p (example.receiving rx []))
      with (@pair (list Call) _ [] (Done (example.receiving rx [p]))).
    io_unfold. cbn [loop_state snd].
    change (socket.receive_iter socket.CaseInbound done
              (example.receiving rx [p]))
      with (@pair (list Call) _ [AppWrite (Payload p)]
              (Done (Continue
                       (done,
                        example.receiving
                          (uint32 (rx + uint32 (Length p))) [])))).
    cbn [loop_state snd]. rewrite IH. cbn [app].
    do 3 f_equal. unfold uint32.
    rewrite Z.add_mod_idemp_l by lia. f_equal. lia.
Qed.

(** A socket fresh from [New] reaches the largest value of the receive
    counter: 65537 packets of length 65535 add up to 2^32 - 1. *)
Lemma receive_counter_reaches_max :
  (example.deliver_and_receive (replicate (Z.to_nat 65537) example.jumbo)
     (chan.make 1) (example.fresh example.remote)).2
  = Done (example.receiving 4294967295 []).
Proof.
  change (example.fresh example.remote) with (example.receiving 0 []).
  rewrite deliver_and_receive_replicate by lia.
  cbn [snd]. rewrite Z2Nat.id by lia. reflexivity.
Qed.

(** C8, as the code has it.  A turn of the receive pump leaves the transmit
    counter alone and either leaves the receive counter alone or replaces
    it by the sum, modulo 2^32, of its value and of the length field of the
    packet taken; a turn of the transmit pump leaves the receive counter
    alone and either leaves the transmit counter alone or replaces it by
    the sum, modulo 2^32, of its value and of the count the factory
    returned; [Close], [Deliver], [WaitForControlPacket],
    [SendControlPacket] and the run loop change neither.
    A counter does not decrease across a turn on which that sum stays below
    2^32. *)
Theorem C8_counters_owned_and_modular {Conn PacketFactory : Type}
    (s : @socket.Socket Conn PacketFactory) (done : chan.chan bool) :
  (forall sel t l,
     socket.receive_iter sel done s = (t, Done l) ->
     socket.txBytes (loop_state l).2 = socket.txBytes s
     /\ (socket.rxBytes (loop_state l).2 = socket.rxBytes s
         \/ exists p rest,
              chan.buf (socket.inbound s) = p :: rest
              /\ socket.rxBytes (loop_state l).2
                 = uint32 (socket.rxBytes s + uint32 (Length p)))
     /\ (0 <= socket.rxBytes s ->
         (forall p rest,
            chan.buf (socket.inbound s) = p :: rest ->
            socket.rxBytes s + uint32 (Length p) < 2 ^ 32) ->
         socket.rxBytes s <= socket.rxBytes (loop_state l).2))
  /\ (forall Addr_String env t l,
        socket.transmit_iter Addr_String env done s = (t, Done l) ->
        socket.rxBytes (loop_state l).2 = socket.rxBytes s
        /\ (socket.txBytes (loop_state l).2 = socket.txBytes s
            \/ socket.txBytes (loop_state l).2
               = uint32 (socket.txBytes s + uint32 (socket.packN env)))
        /\ (0 <= socket.txBytes s ->
            socket.txBytes s + uint32 (socket.packN env) < 2 ^ 32 ->
            socket.txBytes s <= socket.txBytes (loop_state l).2))
  /\ (forall t s',
        socket.Close s = (t, Done s') ->
        socket.txBytes s' = socket.txBytes s
        /\ socket.rxBytes s' = socket.rxBytes s)
  /\ (forall p t s',
        socket.Deliver p s = (t, Done s') ->
        socket.txBytes s' = socket.txBytes s
        /\ socket.rxBytes s' = socket.rxBytes s)
  /\ (forall syn ack fin err timeout sel t r s',
        socket.WaitForControlPacket syn ack fin err timeout sel s
        = (t, Done (r, s')) ->
        socket.txBytes s' = socket.txBytes s
        /\ socket.rxBytes s' = socket.rxBytes s)
  /\ (forall syn ack fin err e t r s',
        socket.SendControlPacket syn ack fin err e s = (t, Done (r, s')) ->
        socket.txBytes s' = socket.txBytes s
        /\ socket.rxBytes s' = socket.rxBytes s)
  /\ (forall sel rxdone txdone t l,
        socket.Run_iter sel rxdone txdone s = (t, Done l) ->
        socket.txBytes (loop_state l).2 = socket.txBytes s
        /\ socket.rxBytes (loop_state l).2 = socket.rxBytes s).
Proof.
  split; [|split; [|split; [|split; [|split; [|split]]]]].
  - intros sel t l H.
    destruct (receive_iter_Done _ _ _ _ _ H)
      as [(_ & _ & done' & ch & _ & ->)|(_ & p & ch & Hr & _ & ->)]; simpl.
    + split; [reflexivity|]. split; [by left|]. intros _ _. lia.
    + apply recv_Value_inv in Hr.
      split; [reflexivity|]. split.
      * right. by exists p, (chan.buf ch).
      * intros H0 Hlt. apply uint32_add_mono; [done|]. by eapply Hlt.
  - intros Addr_String env t l H.
    destruct (transmit_iter_Done _ _ _ _ _ _ H)
      as [->|[(sh & _ & ->)|(_ & _ & ->)]]; simpl.
    + split; [reflexivity|]. split; [by left|]. intros _ _. lia.
    + split; [reflexivity|]. split; [by left|]. intros _ _. lia.
    + split; [reflexivity|]. split; [by right|].
      intros H0 Hlt. by apply uint32_add_mono.
  - intros t s'. unfold socket.Close. io_unfold.
    destruct (chan.send true (socket.shutdown s)) as [sh1| |];
      simpl; try discriminate.
    destruct (chan.close sh1) as [sh2| |]; simpl; try discriminate.
    intros [= _ <-]. done.
  - intros p t s'. unfold socket.Deliver. io_unfold.
    destruct (chan.send p (socket.inbound s)) as [ch| |];
      simpl; try discriminate.
    intros [= _ <-]. done.
  - intros syn ack fin err timeout sel t r s'.
    unfold socket.WaitForControlPacket. io_unfold.
    destruct sel.
    + destruct (chan.recv (socket.inbound s)) as [p ch| |];
        simpl; try discriminate.
      intros [= _ _ <-]. done.
    + intros [= _ _ <-]. done.
  - intros syn ack fin err e t r s'.
    unfold socket.SendControlPacket. io_unfold. simpl.
    intros [= _ _ <-]. done.
  - intros sel rxdone txdone t l. unfold socket.Run_iter. io_unfold.
    destruct sel; [intros [= _ <-]; done|].
    destruct (chan.recv (socket.shutdown s)) as [b sh| |];
      try discriminate;
      destruct (chan.send true txdone) as [tx1| |]; simpl; try discriminate;
      destruct (chan.send true rxdone) as [rx1| |]; simpl; try discriminate;
      destruct (chan.close tx1) as [tx2| |]; simpl; try discriminate;
      destruct (chan.close rx1) as [rx2| |]; simpl; try discriminate;
      intros [= _ <-]; done.
Qed.

Lemma C8_counters_owned_and_modular_witness :
  let p := packet.data 0 7 example.hello in
  let s := example.receiving 100 [p] in
  let r := socket.receive_iter socket.CaseInbound (chan.make 1) s in
  exists l,
    r = ([AppWrite example.hello], Done l)
    /\ socket.txBytes (loop_state l).2 = 0
    /\ 100 <= socket.rxBytes (loop_state l).2.
Proof.
  intros p s r.
  destruct (C8_counters_owned_and_modular s (chan.make 1)) as (Hrecv & _).
  eexists. split; [reflexivity|].
  destruct (Hrecv socket.CaseInbound _ _ eq_refl) as (Htx & _ & Hmono).
  split; [exact Htx|].
  apply Hmono; [simpl; lia|].
  intros q rest [= <- <-]. reflexivity.
Defined.

(** C8 as stated fails: the receive counter is a 32-bit integer and wraps.
    On a socket whose counter stands at 2^32 - 1, a value a fresh socket
    reaches, the turn that takes a packet of length 1 brings it to 0. *)
Lemma C8_receive_counter_decreases :
  let p := packet.data 0 0 [Byte.x68] in
  let s := example.receiving 4294967295 [p] in
  exists st,
    socket.receive_iter socket.CaseInbound (chan.make 1) s
    = ([AppWrite [Byte.x68]], Done (Continue st))
    /\ socket.rxBytes st.2 = 0
    /\ ~ socket.rxBytes s <= socket.rxBytes st.2.
Proof.
  intros p s. eexists. split; [reflexivity|].
  split; [reflexivity|].
  intros Hle. vm_compute in Hle. by apply Hle.
Qed.

(** ** The receive pumps and the controller *)

(** C4, as the code has it.  The receive pump of the socket that owns a
    controller ([receiver]) calls the controller's [Ack] with the
    acknowledgement number of the packet it took, adds the packet's length
    field to the receive counter modulo 2^32 and writes the payload to the
    application, in this order, and changes nothing else.  The receive pump
    of the socket with the handshake ([receive]), which has no controller,
    adds the length field to the receive counter modulo 2^32 and writes the
    payload to the application, and makes no other call. *)
Theorem C4_receive_pumps :
  (forall (Conn Net PacketFactory : Type)
          (s : @socket_atc.Socket Conn Net PacketFactory) (p : Packet),
     exists s',
       socket_atc.receiver_iter p s
       = ([AtcAck (AckNo p); AppWrite (Payload p)], Done s')
       /\ socket_atc.atc s' = atc.Ack (AckNo p) (socket_atc.atc s)
       /\ socket_atc.rxBytes s'
          = uint32 (socket_atc.rxBytes s + uint32 (Length p))
       /\ socket_atc.txBytes s' = socket_atc.txBytes s
       /\ socket_atc.pf s' = socket_atc.pf s
       /\ socket_atc.application s' = socket_atc.application s)
  /\ (forall (Conn PacketFactory : Type)
             (s : @socket.Socket Conn PacketFactory)
             (done : chan.chan bool) (p : Packet) (rest : list Packet),
        chan.buf (socket.inbound s) = p :: rest ->
        exists s',
          socket.receive_iter socket.CaseInbound done s
          = ([AppWrite (Payload p)], Done (Continue (done, s')))
          /\ socket.rxBytes s' = uint32 (socket.rxBytes s + uint32 (Length p))
          /\ chan.buf (socket.inbound s') = rest
          /\ socket.txBytes s' = socket.txBytes s
          /\ socket.application s' = socket.application s).
Proof.
  split.
  - intros Conn Net PacketFactory s p. eexists.
    split; [reflexivity|]. simpl. done.
  - intros Conn PacketFactory s done p rest Hbuf. eexists.
    unfold socket.receive_iter. rewrite (recv_cons _ _ _ Hbuf).
    split; [reflexivity|]. simpl. done.
Qed.

Lemma C4_receive_pumps_witness :
  let p := packet.data 0 5 example.hello in
  let p5 := packet.data 5 0 [] in
  (exists s',
     socket_atc.receiver_iter p (example.established atc.always_ok [p5])
     = ([AtcAck 5; AppWrite example.hello], Done s')
     /\ atc.inFlight (socket_atc.atc s') !! 5 = None
     /\ socket_atc.rxBytes s' = 2)
  /\ (exists s',
        socket.receive_iter socket.CaseInbound (chan.make 1)
          (example.receiving 0 [p])
        = ([AppWrite example.hello], Done (Continue (chan.make 1, s')))
        /\ socket.rxBytes s' = 2).
Proof.
  intros p p5. destruct C4_receive_pumps as [Hv2 Hv1]. split.
  - destruct (Hv2 _ _ _ (example.established atc.always_ok [p5]) p)
      as (s' & Hr & Hatc & Hrx & _).
    exists s'. split; [exact Hr|]. split.
    + rewrite Hatc. reflexivity.
    + rewrite Hrx. reflexivity.
  - destruct (Hv1 _ _ (example.receiving 0 [p]) (chan.make 1) p [] eq_refl)
      as (s' & Hr & Hrx & _).
    exists s'. split; [exact Hr|]. rewrite Hrx. reflexivity.
Defined.

(** C4 as stated fails on the first socket: its receive pump takes a packet
    that carries the acknowledgement number 5 and makes one call, the write
    to the application; it calls no [Ack]. *)
Lemma C4_receive_calls_no_Ack :
  let p := packet.data 0 5 example.hello in
  let r := socket.receive_iter socket.CaseInbound (chan.make 1)
             (example.receiving 0 [p]) in
  r.1 = [AppWrite example.hello] /\ AtcAck (AckNo p) ∉ r.1.
Proof.
  intros p r. split; [reflexivity|].
  intros Hin. apply list_elem_of_In in Hin. simpl in Hin.
  destruct Hin as [Heq|[]]. discriminate.
Qed.

(** ** Errors of the transmit callback *)


Lemma sink_state {Net : Type} (p : Packet) (w : atc.AirTrafficCtrl Net * Net) :
  (socket_atc.sink p w).2
  = ((atc.Send p w.1 w.2).1.2, (atc.Send p w.1 w.2).2).
Proof.
  unfold socket_atc.sink.
  destruct (atc.Send p w.1 w.2) as [[e a] net]. reflexivity.
Qed.






(** ** The transmit pump on explicit inputs *)

Example transmit_iter_advances :
  socket.transmit_iter example.Addr_String
    (socket.mkTransmitEnv example.hello None 2 None)
    (chan.make 1) (example.fresh example.remote)
  = ([AppRead; FactorySend example.hello],
     Done (Continue
             (chan.make 1,
              socket.set_txBytes unit unit 2 (example.fresh example.remote)))).
Proof. reflexivity. Qed.

Example transmit_iter_end_of_input :
  socket.transmit_iter example.Addr_String
    (socket.mkTransmitEnv [] (Some socket.EOF) 0 None)
    (chan.make 1) (example.fresh example.remote)
  = ([AppRead],
     Done (Return
             (chan.make 1,
              socket.set_shutdown unit unit (chan.mk [true] 1 false)
                (example.fresh example.remote)))).
Proof. reflexivity. Qed.

Example transmit_iter_factory_error :
  socket.transmit_iter example.Addr_String
    (socket.mkTransmitEnv example.hello None 0 (Some "message too long"))
    (chan.make 1) (example.fresh example.remote)
  = ([AppRead; FactorySend example.hello;
      LogPrintf ("[rdtp socket 127.0.0.1 10.0.0.2] " +:+
                 "Error packetizing and forwarding message: message too long")],
     Done (Return (chan.make 1, example.fresh example.remote))).
Proof. reflexivity. Qed.

(** ** The controller and the second socket on explicit inputs *)

(** [Send] of packet 5, then [Ack] 5, then a long wait: one transmission,
    and no entry for 5. *)
Example send_ack_wait :
  let p5 := packet.data 5 0 example.hello in
  let st := atc.run [atc.EvSend p5; atc.EvAck 5;
                     atc.EvElapse (10 * atc.defaultAckWaitTime)]
              (atc.NewAirTrafficCtrl (atc.recording atc.always_ok), []) in
  st.2 = [p5] /\ atc.inFlight st.1 !! 5 = None.
Proof. split; reflexivity. Qed.

(** A turn of [sender] on the socket [NewSocket] builds, over a network
    that is down: the factory hands the chunk to the sink, nothing is
    transmitted and nothing is reported, and the pump goes round with the
    transmit counter advanced and the packet in flight. *)
Example sender_iter_network_down :
  exists s',
    socket_atc.sender_iter (example.pf_Send socket_atc.sink)
      (inl example.hello) example.built []
    = ([AppRead; FactorySend example.hello], Done (Continue (s', [])))
    /\ socket_atc.txBytes s' = 2
    /\ is_Some (atc.inFlight (socket_atc.atc s') !! 0).
Proof.
  eexists. split; [reflexivity|]. split; [reflexivity|].
  eexists. reflexivity.
Qed.

(** The factory on a message of 3000 bytes with chunks of 1460: three
    packets, numbered 0, 1460 and 2920, of 1460, 1460 and 80 bytes. *)
Example factory_three_chunks :
  let sink := fun (p : Packet) (log : list (Z * Z)) =>
                (@None string, log ++ [(SeqNo p, Length p)]) in
  example.pf_Send sink (replicate 3000 Byte.x00)
    (example.mkFactory 4000 5000 0 1460) []
  = ((3000, None), example.mkFactory 4000 5000 3000 1460,
     [(0, 1460); (1460, 1460); (2920, 80)]).
Proof. vm_compute. reflexivity. Qed.

(** * Further properties of the controller *)

Section ControllerHistories.

Context {Net : Type}.
Implicit Types (a : atc.AirTrafficCtrl Net) (net : Net).
Implicit Types (es : list atc.Event) (e : atc.Event).

Lemma step_Send_inFlight (st : atc.AirTrafficCtrl Net * Net) pck :
  atc.inFlight (atc.step st (atc.EvSend pck)).1
  = <[SeqNo pck := pck]> (atc.inFlight st.1).
Proof.
  simpl. pose proof (Send_state pck st.1 st.2) as Hs.
  destruct (atc.Send pck st.1 st.2) as [[err a'] net']. simpl in *.
  by subst a'.
Qed.

(** A call that is not about [n] leaves the entry of [n] alone. *)
Lemma step_leaves (st : atc.AirTrafficCtrl Net * Net) e n :
  atc.leaves n e ->
  atc.inFlight (atc.step st e).1 !! n = atc.inFlight st.1 !! n.
Proof.
  destruct e as [pck|k|d]; intros Hl.
  - rewrite step_Send_inFlight. by apply lookup_insert_ne.
  - simpl. by apply lookup_delete_ne.
  - done.
Qed.

Lemma run_leaves es (st : atc.AirTrafficCtrl Net * Net) n :
  Forall (atc.leaves n) es ->
  atc.inFlight (atc.run es st).1 !! n = atc.inFlight st.1 !! n.
Proof.
  intros Hes. revert st. induction Hes as [|e es He _ IH]; intros st; [done|].
  change (atc.run (e :: es) st) with (atc.run es (atc.step st e)).
  by rewrite IH, step_leaves.
Qed.

Lemma leaves_dec n e : {atc.leaves n e} + {~ atc.leaves n e}.
Proof.
  destruct e as [q|k|d]; simpl.
  - destruct (decide (SeqNo q = n)); [right|left]; tauto.
  - destruct (decide (k = n)); [right|left]; tauto.
  - by left.
Qed.

(** The entry of [n] after a history, from the empty map of the
    constructor: the packet of the last [Send] numbered [n], if no [Ack n]
    came after it. *)
Lemma inFlight_history fw net es n pck :
  atc.inFlight (atc.run es (atc.NewAirTrafficCtrl fw, net)).1 !! n = Some pck
  <-> exists es1 es2,
        es = es1 ++ atc.EvSend pck :: es2
        /\ SeqNo pck = n
        /\ Forall (atc.leaves n) es2.
Proof.
  split.
  - revert pck. induction es as [|e es IH] using rev_ind; intros pck.
    + simpl. by rewrite lookup_empty.
    + rewrite run_snoc.
      destruct (leaves_dec n e) as [Hl|Hl].
      * rewrite step_leaves by done. intros H.
        destruct (IH _ H) as (es1 & es2 & -> & Hn & Hes2).
        exists es1, (es2 ++ [e]). split; [by rewrite <- app_assoc|].
        split; [done|]. apply Forall_app. split; [done|]. by constructor.
      * destruct e as [q|k|d]; simpl in Hl.
        -- rewrite step_Send_inFlight.
           assert (SeqNo q = n) as Hq by (destruct (decide (SeqNo q = n)); done).
           rewrite Hq, lookup_insert_eq. intros [= <-].
           exists es, []. done.
        -- assert (k = n) as -> by (destruct (decide (k = n)); done).
           simpl. by rewrite lookup_delete_eq.
        -- done.
  - intros (es1 & es2 & -> & Hn & Hes2).
    rewrite run_app.
    change (atc.run (atc.EvSend pck :: es2) ?st)
      with (atc.run es2 (atc.step st (atc.EvSend pck))).
    rewrite run_leaves by done. rewrite step_Send_inFlight.
    rewrite <- Hn. apply lookup_insert_eq.
Qed.

End ControllerHistories.

(** The in-flight map after any history of calls and waits on a fresh
    controller holds [pck] under [n] exactly when the history has a [Send]
    of [pck], numbered [n], after which comes neither an [Ack n] nor
    another [Send] numbered [n]; whether the callback succeeded plays no
    part. *)
Theorem atc_entry_iff_last_Send_not_acked {Net : Type}
    (fw : Packet -> Net -> error * Net) (net : Net)
    (es : list atc.Event) (n : Z) (pck : Packet) :
  atc.inFlight (atc.run es (atc.NewAirTrafficCtrl fw, net)).1 !! n = Some pck
  <-> exists es1 es2,
        es = es1 ++ atc.EvSend pck :: es2
        /\ SeqNo pck = n
        /\ Forall (atc.leaves n) es2.
Proof. apply inFlight_history. Qed.

Lemma atc_entry_iff_last_Send_not_acked_witness :
  let p5 := packet.data 5 0 example.hello in
  let p5' := packet.data 5 1 [] in
  let p6 := packet.data 6 0 [] in
  let es := [atc.EvSend p5; atc.EvAck 5; atc.EvSend p5'; atc.EvSend p6;
             atc.EvAck 9; atc.EvElapse 7] in
  atc.inFlight
    (atc.run es (atc.NewAirTrafficCtrl (atc.recording atc.always_down), [])).1
    !! 5 = Some p5'.
Proof.
  intros p5 p5' p6 es.
  apply (atc_entry_iff_last_Send_not_acked
           (atc.recording atc.always_down) [] es 5 p5').
  exists [atc.EvSend p5; atc.EvAck 5], [atc.EvSend p6; atc.EvAck 9; atc.EvElapse 7].
  split; [reflexivity|]. split; [reflexivity|].
  repeat constructor; simpl; lia.
Defined.

(** With the packets behind their pointers: as long as the callback writes
    to no packet's sequence number, [Send] of a non-nil pointer completes
    and, like [Ack], keeps the map keyed, every entry pointing to a packet
    that carries the number it is stored under; [Send] of a nil pointer
    panics; and a callback that writes another number to the packet it is
    given breaks this, the entry staying under the old number. *)
Theorem atc_entries_stay_keyed_unless_renumbered {Net : Type}
    (a : atc_ptr.AirTrafficCtrl Net) (h : atc_ptr.Heap) (net : Net)
    (pck : positive) :
  (atc_ptr.keeps_numbers (atc_ptr.fwFunc a) ->
   atc_ptr.keyed h (atc_ptr.inFlight a) ->
   (forall p, h !! pck = Some p ->
      exists e a' h' net',
        atc_ptr.Send pck a h net = Done (e, a', h', net')
        /\ atc_ptr.fwFunc a' = atc_ptr.fwFunc a
        /\ atc_ptr.inFlight a' = <[SeqNo p := pck]> (atc_ptr.inFlight a)
        /\ atc_ptr.keyed h' (atc_ptr.inFlight a'))
   /\ (forall n, atc_ptr.keyed h (atc_ptr.inFlight (atc_ptr.Ack n a))))
  /\ (h !! pck = None ->
      atc_ptr.Send pck a h net
      = Panic "invalid memory address or nil pointer dereference")
  /\ (forall p n (sent : list Packet),
        h !! pck = Some p -> n ≠ SeqNo p ->
        exists a' h' sent',
          atc_ptr.Send pck
            (atc_ptr.NewAirTrafficCtrl (atc_ptr.renumbering n)) h sent
          = Done (None, a', h', sent')
          /\ atc_ptr.inFlight a' !! SeqNo p = Some pck
          /\ h' !! pck = Some (atc_ptr.renumber n p)
          /\ ~ atc_ptr.keyed h' (atc_ptr.inFlight a')).
Proof.
  split; [|split].
  - intros Hfw Hk. split.
    + intros p Hp. unfold atc_ptr.Send. rewrite Hp. cbn zeta.
      set (a' := atc_ptr.mkATC _ _ _).
      pose proof (Hfw pck h net) as Hkeep.
      change (atc_ptr.fwFunc a') with (atc_ptr.fwFunc a).
      destruct (atc_ptr.fwFunc a pck h net) as [[[err|] h'] net'];
        simpl in Hkeep;
        eexists _, a', h', net'; (split; [reflexivity|]);
        (split; [reflexivity|]); (split; [reflexivity|]);
        intros k l; subst a'; simpl;
        (destruct (decide (SeqNo p = k)) as [<-|Hne];
         [rewrite lookup_insert_eq; intros [= <-]; by apply Hkeep
         |rewrite lookup_insert_ne by done; intros Hl;
          destruct (Hk k l Hl) as (q & Hq & <-); by apply Hkeep]).
    + intros n k l. simpl.
      destruct (decide (n = k)) as [<-|Hne].
      * by rewrite lookup_delete_eq.
      * rewrite lookup_delete_ne by done. apply Hk.
  - intros Hp. unfold atc_ptr.Send. by rewrite Hp.
  - intros p n sent Hp Hn. unfold atc_ptr.Send. rewrite Hp. simpl.
    eexists _, _, _. split; [reflexivity|]. simpl.
    split; [apply lookup_insert_eq|].
    assert (Hh : alter (atc_ptr.renumber n) pck h !! pck
                 = Some (atc_ptr.renumber n p)).
    { by rewrite lookup_alter_eq, Hp. }
    split; [exact Hh|].
    intros Hk. destruct (Hk (SeqNo p) pck) as (q & Hq & Hseq).
    { apply lookup_insert_eq. }
    rewrite Hh in Hq. injection Hq as <-. simpl in Hseq. done.
Qed.

Lemma atc_entries_stay_keyed_unless_renumbered_witness :
  let p5 := packet.data 5 0 example.hello in
  let h : atc_ptr.Heap := {[ 1%positive := p5 ]} in
  let a0 := atc_ptr.NewAirTrafficCtrl atc_ptr.transmitting in
  (exists a' h' sent',
     atc_ptr.Send 1 a0 h [] = Done (None, a', h', sent')
     /\ atc_ptr.keyed h' (atc_ptr.inFlight a'))
  /\ (exists a' h' sent',
        atc_ptr.Send 1
          (atc_ptr.NewAirTrafficCtrl (atc_ptr.renumbering 9)) h []
        = Done (None, a', h', sent')
        /\ ~ atc_ptr.keyed h' (atc_ptr.inFlight a')).
Proof.
  intros p5 h a0.
  destruct (atc_entries_stay_keyed_unless_renumbered a0 h [] 1)
    as (Hkeep & _ & Hbreak).
  split.
  - destruct Hkeep as [Hsend _].
    + intros pck h0 net l p Hl. exists p. by split.
    + intros k l. simpl. by rewrite lookup_empty.
    + destruct (Hsend p5 eq_refl) as (e & a' & h' & sent' & Hs & _ & _ & Hk).
      exists a', h', sent'. split; [|exact Hk].
      rewrite Hs. vm_compute in Hs. by injection Hs as <- _ _ _.
  - destruct (Hbreak p5 9 [] eq_refl) as (a' & h' & sent' & Hs & _ & _ & Hk).
    + simpl. lia.
    + exists a', h', sent'. by split.
Defined.

(** Over a network that records what the callback is given, any history of
    [Send], [Ack] and waits hands the callback exactly the packets of its
    [Send] calls, once each and in the order of the calls, whether the
    callback succeeds or fails: [Ack] transmits nothing and a failed
    transmission is not tried again. *)
Theorem atc_callback_once_per_Send (ok : Packet -> error)
    (es : list atc.Event) (w : Z) (fl : gmap Z Packet) (log : list Packet) :
  (atc.run es (atc.mkATC w (atc.recording ok) fl, log)).2
  = log ++ atc.sends es.
Proof. apply run_transmits_sends. Qed.

Lemma Send_inFlight {Net : Type} (a : atc.AirTrafficCtrl Net) pck (net : Net) :
  atc.inFlight (atc.Send pck a net).1.2 = <[SeqNo pck := pck]> (atc.inFlight a).
Proof. by rewrite Send_state. Qed.

Lemma Ack_inFlight {Net : Type} (a : atc.AirTrafficCtrl Net) n :
  atc.inFlight (atc.Ack n a) = delete n (atc.inFlight a).
Proof. reflexivity. Qed.

(** Calls about different sequence numbers can be swapped without changing
    the in-flight map, and of two [Send] calls with the same number the
    later one alone decides the entry: a number is never tracked twice. *)
Theorem atc_calls_commute_and_last_Send_wins {Net : Type}
    (a : atc.AirTrafficCtrl Net) (p q : Packet) (n m : Z)
    (net1 net2 net3 : Net) :
  (SeqNo p = SeqNo q ->
   atc.inFlight (atc.Send q (atc.Send p a net1).1.2 net2).1.2
   = atc.inFlight (atc.Send q a net3).1.2)
  /\ (SeqNo p ≠ SeqNo q ->
      atc.inFlight (atc.Send q (atc.Send p a net1).1.2 net2).1.2
      = atc.inFlight (atc.Send p (atc.Send q a net2).1.2 net1).1.2)
  /\ (SeqNo p ≠ n ->
      atc.inFlight (atc.Ack n (atc.Send p a net1).1.2)
      = atc.inFlight (atc.Send p (atc.Ack n a) net1).1.2)
  /\ atc.inFlight (atc.Ack n (atc.Ack m a))
     = atc.inFlight (atc.Ack m (atc.Ack n a)).
Proof.
  repeat split.
  - intros Heq. rewrite !Send_inFlight, Heq. apply insert_insert_eq.
  - intros Hne. rewrite !Send_inFlight. by apply insert_insert_ne.
  - intros Hne. rewrite Ack_inFlight, !Send_inFlight, Ack_inFlight.
    apply delete_insert_ne. congruence.
  - rewrite !Ack_inFlight. apply delete_delete.
Qed.

Lemma atc_calls_commute_and_last_Send_wins_witness :
  let a0 := atc.NewAirTrafficCtrl (atc.recording atc.always_ok) in
  let p5 := packet.data 5 0 example.hello in
  let p5' := packet.data 5 1 [] in
  let p6 := packet.data 6 0 [] in
  atc.inFlight (atc.Send p5' (atc.Send p5 a0 []).1.2 [p5]).1.2
  = atc.inFlight (atc.Send p5' a0 []).1.2
  /\ atc.inFlight (atc.Send p6 (atc.Send p5 a0 []).1.2 []).1.2
     = atc.inFlight (atc.Send p5 (atc.Send p6 a0 []).1.2 []).1.2
  /\ atc.inFlight (atc.Ack 6 (atc.Send p5 a0 []).1.2)
     = atc.inFlight (atc.Send p5 (atc.Ack 6 a0) []).1.2.
Proof.
  intros a0 p5 p5' p6.
  split; [|split].
  - destruct (atc_calls_commute_and_last_Send_wins a0 p5 p5' 0 0 [] [p5] [])
      as (H & _).
    apply H. reflexivity.
  - destruct (atc_calls_commute_and_last_Send_wins a0 p5 p6 0 0 [] [] [])
      as (_ & H & _).
    apply H. simpl. lia.
  - destruct (atc_calls_commute_and_last_Send_wins a0 p5 p6 6 0 [] [] [])
      as (_ & _ & H & _).
    apply H. simpl. lia.
Defined.

Lemma sends_snoc_elem es e (pck : Packet) :
  pck ∈ atc.sends (es ++ [e]) ->
  pck ∈ atc.sends es \/ e = atc.EvSend pck.
Proof.
  rewrite sends_app. intros [H|H]%elem_of_app; [by left|right].
  destruct e as [q|k|d]; simpl in H.
  - apply list_elem_of_singleton in H. by subst.
  - by apply elem_of_nil in H.
  - by apply elem_of_nil in H.
Qed.

(** Only [Ack] removes entries: after a history without [Ack], the number
    of every packet that was given to [Send] is still in flight, however
    much time has passed and whether its transmission succeeded or not. *)
Theorem atc_without_Ack_every_Send_stays {Net : Type}
    (fw : Packet -> Net -> error * Net) (net : Net)
    (es : list atc.Event) (pck : Packet) :
  (forall k, atc.EvAck k ∉ es) ->
  pck ∈ atc.sends es ->
  is_Some
    (atc.inFlight (atc.run es (atc.NewAirTrafficCtrl fw, net)).1
       !! SeqNo pck).
Proof.
  induction es as [|e es IH] using rev_ind; intros Hack Hin.
  - by apply elem_of_nil in Hin.
  - rewrite run_snoc.
    assert (Hack' : forall k, atc.EvAck k ∉ es).
    { intros k Hk. apply (Hack k). set_solver. }
    destruct e as [q|k|d].
    + rewrite step_Send_inFlight.
      destruct (decide (SeqNo q = SeqNo pck)) as [Heq|Hne].
      * rewrite Heq, lookup_insert_eq. by eexists.
      * rewrite lookup_insert_ne by done.
        apply IH; [done|].
        apply sends_snoc_elem in Hin as [Hin|Hin]; [done|].
        injection Hin as ->. done.
    + exfalso. apply (Hack k). set_solver.
    + simpl. apply IH; [done|].
      apply sends_snoc_elem in Hin as [Hin|Hin]; [done|discriminate].
Qed.

Lemma atc_without_Ack_every_Send_stays_witness :
  let p5 := packet.data 5 0 example.hello in
  let p6 := packet.data 6 0 [] in
  let es := [atc.EvSend p5; atc.EvElapse 1000000000000; atc.EvSend p6] in
  is_Some
    (atc.inFlight
       (atc.run es (atc.NewAirTrafficCtrl (atc.recording atc.always_down), [])).1
       !! 5).
Proof.
  intros p5 p6 es.
  apply (atc_without_Ack_every_Send_stays
           (atc.recording atc.always_down) [] es p5).
  - intros k Hk. apply list_elem_of_In in Hk. simpl in Hk.
    destruct Hk as [Hk|[Hk|[Hk|[]]]]; discriminate.
  - apply list_elem_of_In. simpl. by left.
Defined.

(** * Further properties of the first socket *)

Section NewFacts.

Context {IP Conn NetworkLayer PacketFactory : Type}.
Context (ParseIP : string -> option IP).
Context (Network_Send : Packet -> NetworkLayer -> error * NetworkLayer).
Context (SetSourceIPv4 SetDestinationIPv4 : option IP -> Packet -> Packet).
Context (DefaultPacketFactory :
           option IP -> option IP -> Z -> Z ->
           (Packet -> NetworkLayer -> error * NetworkLayer) -> PacketFactory).

Local Abbreviation New' :=
  (@socket.New IP ParseIP Conn NetworkLayer Network_Send SetSourceIPv4
               SetDestinationIPv4 PacketFactory DefaultPacketFactory).

(** [New] gives a socket and no error exactly for the configurations that
    have a local address whose host parses, a remote address, an
    application and a network; the socket then has the two addresses, both
    byte counters at zero, an empty open inbound queue of capacity 100 and
    an empty open shutdown channel of capacity 1. *)
Theorem New_succeeds_iff (c : @socket.Config Conn NetworkLayer)
    (s : @socket.Socket Conn PacketFactory) :
  New' c = (Some s, None)
  <-> exists la ra app nw ip,
        c = socket.mkConfig (Some la) (Some ra) (Some app) (Some nw)
        /\ ParseIP (Host la) = Some ip
        /\ s = socket.mkSocket la ra 0 0 app
                 (DefaultPacketFactory
                    (ParseIP (Host la)) (ParseIP (Host ra))
                    (uint16 (Port la)) (uint16 (Port ra))
                    (socket.toNetwork IP ParseIP NetworkLayer Network_Send
                       SetSourceIPv4 SetDestinationIPv4 la ra))
                 (chan.make 100) (chan.make 1).
Proof.
  split.
  - destruct c as [[la|] [ra|] [app|] [nw|]]; unfold socket.New; simpl;
      try discriminate;
      destruct (ParseIP (Host la)) as [ip|] eqn:Hip; try discriminate.
    intros [= <-]. exists la, ra, app, nw, ip. rewrite Hip. done.
  - intros (la & ra & app & nw & ip & -> & Hip & ->).
    unfold socket.New. simpl. rewrite Hip. reflexivity.
Qed.

(** The first check of [New] that fails decides the error, in the order
    local address, remote address, application, network; the error comes
    with no socket. *)
Theorem New_first_failing_check (c : @socket.Config Conn NetworkLayer) :
  ((socket.LocalAddr c = None
    \/ exists la, socket.LocalAddr c = Some la /\ ParseIP (Host la) = None) ->
   New' c = (None, Some "invalid local address"))
  /\ (forall la ip,
        socket.LocalAddr c = Some la -> ParseIP (Host la) = Some ip ->
        (socket.RemoteAddr c = None ->
         New' c = (None, Some "remote address cannot be nil"))
        /\ (forall ra,
              socket.RemoteAddr c = Some ra ->
              (socket.Application c = None ->
               New' c = (None,
                         Some "connection to application layer cannot be nil"))
              /\ (forall app,
                    socket.Application c = Some app ->
                    socket.Network c = None ->
                    New' c = (None,
                              Some "connection to network layer cannot be nil")))).
Proof.
  split.
  - intros [H|(la & H1 & H2)]; unfold socket.New.
    + by rewrite H.
    + by rewrite H1, H2.
  - intros la ip Hl Hip. split.
    + intros Hr. unfold socket.New. by rewrite Hl, Hip, Hr.
    + intros ra Hr. split.
      * intros Ha. unfold socket.New. by rewrite Hl, Hip, Hr, Ha.
      * intros app Ha Hn. unfold socket.New. by rewrite Hl, Hip, Hr, Ha, Hn.
Qed.

End NewFacts.

Lemma New_succeeds_iff_witness :
  example.New (example.config example.remote)
  = (Some (example.fresh example.remote), None).
Proof.
  apply (New_succeeds_iff example.ParseIP example.Network_Send
           example.SetIPv4 example.SetIPv4 example.DefaultPacketFactory).
  exists example.local, example.remote, tt, tt, [127; 0; 0; 1].
  split; [reflexivity|]. split; reflexivity.
Defined.

Lemma New_first_failing_check_witness :
  example.New (@socket.mkConfig unit unit None None None None)
  = (None, Some "invalid local address")
  /\ example.New (@socket.mkConfig unit unit (Some example.local)
                    (Some example.remote) None None)
     = (None, Some "connection to application layer cannot be nil").
Proof.
  split.
  - destruct (New_first_failing_check example.ParseIP example.Network_Send
                example.SetIPv4 example.SetIPv4 example.DefaultPacketFactory
                (@socket.mkConfig unit unit None None None None)) as [H _].
    apply H. by left.
  - destruct (New_first_failing_check example.ParseIP example.Network_Send
                example.SetIPv4 example.SetIPv4 example.DefaultPacketFactory
                (@socket.mkConfig unit unit (Some example.local)
                   (Some example.remote) None None)) as [_ H].
    destruct (H example.local [127; 0; 0; 1] eq_refl eq_refl) as [_ H'].
    destruct (H' example.remote eq_refl) as [H'' _].
    apply H''. reflexivity.
Defined.

Section QueueFacts.

Context {Conn PacketFactory : Type}.
Implicit Types (s : @socket.Socket Conn PacketFactory).
Implicit Types (done : chan.chan bool) (p : Packet) (ps : list Packet).

Local Abbreviation set_inbound' := (socket.set_inbound Conn PacketFactory).
Local Abbreviation set_rxBytes' := (socket.set_rxBytes Conn PacketFactory).

Lemma Deliver_room p s :
  chan.closed (socket.inbound s) = false ->
  (length (chan.buf (socket.inbound s)) < chan.cap (socket.inbound s))%nat ->
  socket.Deliver p s
  = ([], Done (set_inbound'
                 (chan.mk (chan.buf (socket.inbound s) ++ [p])
                          (chan.cap (socket.inbound s)) false) s)).
Proof.
  intros Hc Hroom. unfold socket.Deliver, chan.send. rewrite Hc.
  destruct (decide _) as [_|Hn]; [|done]. reflexivity.
Qed.

Lemma Deliver_full p s :
  chan.closed (socket.inbound s) = false ->
  (chan.cap (socket.inbound s) <= length (chan.buf (socket.inbound s)))%nat ->
  socket.Deliver p s = ([], Blocked).
Proof.
  intros Hc Hfull. unfold socket.Deliver, chan.send. rewrite Hc.
  destruct (decide _) as [Hn|_]; [lia|]. reflexivity.
Qed.

Lemma Deliver_closed p s :
  chan.closed (socket.inbound s) = true ->
  socket.Deliver p s = ([], Panic "send on closed channel").
Proof. intros Hc. unfold socket.Deliver, chan.send. by rewrite Hc. Qed.

Lemma set_inbound_id s :
  set_inbound' (chan.mk (chan.buf (socket.inbound s))
                        (chan.cap (socket.inbound s))
                        (chan.closed (socket.inbound s))) s = s.
Proof. destruct s as [? ? ? ? ? ? [? ? ?] ?]. reflexivity. Qed.

Lemma receive_iter_inbound_cons done s p rest :
  chan.buf (socket.inbound s) = p :: rest ->
  socket.receive_iter socket.CaseInbound done s
  = ([AppWrite (Payload p)],
     Done (Continue
             (done,
              set_rxBytes' (uint32 (socket.rxBytes s + uint32 (Length p)))
                (set_inbound'
                   (chan.mk rest (chan.cap (socket.inbound s))
                            (chan.closed (socket.inbound s))) s)))).
Proof.
  intros Hbuf. unfold socket.receive_iter.
  rewrite (recv_cons _ _ _ Hbuf). reflexivity.
Qed.

(** [WaitForControlPacket] reports the first flag that differs, in the
    order SYN, ACK, FIN, ERR, with the requested and the received value;
    later differences are not looked at.  The packet is consumed. *)
Theorem WaitForControlPacket_reports_first_difference
    s (syn ack fin err : bool) (timeout : Z) p rest :
  chan.buf (socket.inbound s) = p :: rest ->
  let s' := set_inbound'
              (chan.mk rest (chan.cap (socket.inbound s))
                       (chan.closed (socket.inbound s))) s in
  let fails_with e :=
    socket.WaitForControlPacket syn ack fin err timeout socket.CaseInboundW s
    = ([], Done (Some e, s')) in
  (IsSYN p ≠ syn -> fails_with (socket.mismatch "SYN" syn (IsSYN p)))
  /\ (IsSYN p = syn -> IsACK p ≠ ack ->
      fails_with (socket.mismatch "ACK" ack (IsACK p)))
  /\ (IsSYN p = syn -> IsACK p = ack -> IsFIN p ≠ fin ->
      fails_with (socket.mismatch "FIN" fin (IsFIN p)))
  /\ (IsSYN p = syn -> IsACK p = ack -> IsFIN p = fin -> IsERR p ≠ err ->
      fails_with (socket.mismatch "ERR" err (IsERR p))).
Proof.
  intros Hbuf s' fails_with. subst s' fails_with.
  unfold socket.WaitForControlPacket. rewrite (recv_cons _ _ _ Hbuf).
  unfold socket.check_flags, socket.mismatch.
  repeat split.
  - intros H. destruct syn, (IsSYN p); try done.
  - intros <- H. rewrite Bool.eqb_reflx. destruct ack, (IsACK p); try done.
  - intros <- <- H. rewrite !Bool.eqb_reflx.
    destruct fin, (IsFIN p); try done.
  - intros <- <- <- H. rewrite !Bool.eqb_reflx.
    destruct err, (IsERR p); try done.
Qed.

(** A packet delivered to a socket with an empty, open inbound queue is
    the one the next [WaitForControlPacket] takes: asked for the packet's
    own flags it returns success, and the queue is empty again. *)
Theorem Deliver_then_WaitForControlPacket s p (timeout : Z) :
  chan.closed (socket.inbound s) = false ->
  chan.buf (socket.inbound s) = [] ->
  (0 < chan.cap (socket.inbound s))%nat ->
  exists s1,
    socket.Deliver p s = ([], Done s1)
    /\ socket.WaitForControlPacket (IsSYN p) (IsACK p) (IsFIN p) (IsERR p)
         timeout socket.CaseInboundW s1
       = ([], Done (None, s)).
Proof.
  intros Hc Hb Hcap.
  destruct s as [la ra tx rx app pk [b c cl] sh]. simpl in *. subst b cl.
  eexists. split.
  - unfold socket.Deliver, chan.send. simpl.
    destruct (decide _) as [_|Hn]; [reflexivity|]. simpl in Hn. lia.
  - unfold socket.WaitForControlPacket. simpl.
    unfold socket.check_flags. rewrite !Bool.eqb_reflx. reflexivity.
Qed.

(** [Deliver] queues packets in order and never drops one: a run of
    deliveries that fits in the free room of an open inbound queue leaves
    them at the tail of the queue, in order, and changes nothing else; a
    run that does not fit blocks. *)
Theorem Deliver_all_fits_or_blocks ps s :
  chan.closed (socket.inbound s) = false ->
  (length (chan.buf (socket.inbound s)) <= chan.cap (socket.inbound s))%nat ->
  ((length (chan.buf (socket.inbound s)) + length ps
    <= chan.cap (socket.inbound s))%nat ->
   socket.Deliver_all ps s
   = ([], Done (set_inbound'
                  (chan.mk (chan.buf (socket.inbound s) ++ ps)
                           (chan.cap (socket.inbound s)) false) s)))
  /\ ((chan.cap (socket.inbound s)
       < length (chan.buf (socket.inbound s)) + length ps)%nat ->
      socket.Deliver_all ps s = ([], Blocked)).
Proof.
  revert s. induction ps as [|p ps IH]; intros s Hc Hwf.
  - split.
    + intros _. simpl. rewrite app_nil_r, <- Hc, set_inbound_id. reflexivity.
    + simpl. lia.
  - destruct (decide (length (chan.buf (socket.inbound s))
                      < chan.cap (socket.inbound s))%nat) as [Hroom|Hfull].
    + cbn [socket.Deliver_all]. rewrite Deliver_room by done.
      set (s1 := set_inbound' _ s).
      destruct (IH s1) as [IHfit IHblock]; [done| |].
      { subst s1. simpl. rewrite length_app. simpl. lia. }
      split.
      * intros Hfit. io_unfold. rewrite IHfit.
        2:{ subst s1. simpl in *. rewrite length_app. simpl. lia. }
        subst s1. simpl. rewrite <- app_assoc. reflexivity.
      * intros Hover. io_unfold. rewrite IHblock; [reflexivity|].
        subst s1. simpl in *. rewrite length_app. simpl. lia.
    + split.
      * simpl. lia.
      * intros _. cbn [socket.Deliver_all].
        rewrite Deliver_full by (done || lia). reflexivity.
Qed.

End QueueFacts.

Lemma WaitForControlPacket_reports_first_difference_witness :
  let p := packet.control false false true true in
  let s := example.receiving 0 [p] in
  socket.WaitForControlPacket true true false false 1000
    socket.CaseInboundW s
  = ([], Done (Some (socket.mismatch "SYN" true false),
               example.receiving 0 [])).
Proof.
  intros p s.
  destruct (WaitForControlPacket_reports_first_difference
              s true true false false 1000 p [] eq_refl) as (H & _).
  apply H. discriminate.
Defined.

Lemma Deliver_then_WaitForControlPacket_witness :
  let p := packet.control true false false false in
  let s := example.fresh example.remote in
  exists s1,
    socket.Deliver p s = ([], Done s1)
    /\ socket.WaitForControlPacket true false false false 1000
         socket.CaseInboundW s1
       = ([], Done (None, s)).
Proof.
  intros p s.
  apply (Deliver_then_WaitForControlPacket s p 1000).
  - reflexivity.
  - reflexivity.
  - simpl. lia.
Defined.

Lemma Deliver_all_fits_or_blocks_witness :
  let s := example.fresh example.remote in
  socket.Deliver_all (replicate 100 example.jumbo) s
  = ([], Done (example.receiving 0 (replicate 100 example.jumbo)))
  /\ socket.Deliver_all (replicate 101 example.jumbo) s = ([], Blocked).
Proof.
  intros s. split.
  - destruct (Deliver_all_fits_or_blocks (replicate 100 example.jumbo) s)
      as [Hfit _]; [reflexivity|simpl; lia|].
    apply Hfit. rewrite length_replicate. simpl. lia.
  - destruct (Deliver_all_fits_or_blocks (replicate 101 example.jumbo) s)
      as [_ Hblock]; [reflexivity|simpl; lia|].
    apply Hblock. rewrite length_replicate. simpl. lia.
Defined.

Lemma uint32_add_add a b c :
  uint32 (uint32 (a + uint32 b) + c) = uint32 (a + (b + c)).
Proof.
  unfold uint32. rewrite Z.add_mod_idemp_l by lia.
  replace (a + b mod 2 ^ 32 + c) with (a + c + b mod 2 ^ 32) by lia.
  rewrite Z.add_mod_idemp_r by lia. f_equal. lia.
Qed.

Section ReceiveFacts.

Context {Conn PacketFactory : Type}.
Implicit Types (s : @socket.Socket Conn PacketFactory).
Implicit Types (done : chan.chan bool) (p : Packet) (ps : list Packet).

(** When the receive pump takes its done signal it closes the inbound
    queue and returns; from then on every [Deliver] on the socket panics
    with a send on a closed channel. *)
Theorem Deliver_after_receive_returned_panics done s :
  chan.closed (socket.inbound s) = false ->
  chan.recv done ≠ chan.NotReady ->
  exists done' s',
    socket.receive_iter socket.CaseDone done s
    = ([], Done (Return (done', s')))
    /\ chan.closed (socket.inbound s') = true
    /\ chan.buf (socket.inbound s') = chan.buf (socket.inbound s)
    /\ forall p, socket.Deliver p s' = ([], Panic "send on closed channel").
Proof.
  intros Hc Hready. unfold socket.receive_iter.
  destruct (chan.recv done) as [b done'| |] eqn:Hr; [| |done].
  - unfold chan.close. rewrite Hc. eexists _, _.
    split; [reflexivity|]. split; [reflexivity|]. split; [reflexivity|].
    intros p. by apply Deliver_closed.
  - unfold chan.close. rewrite Hc. eexists _, _.
    split; [reflexivity|]. split; [reflexivity|]. split; [reflexivity|].
    intros p. by apply Deliver_closed.
Qed.

(** The receive pump hands the application the payloads of the queued
    packets in the order of the queue, one write each, and its counter
    ends at the sum of their length fields, modulo 2^32, on top of what it
    was; the queue is then empty. *)
Theorem receive_drains_queue_in_order ps done s :
  chan.buf (socket.inbound s) = ps ->
  0 <= socket.rxBytes s < 2 ^ 32 ->
  socket.receive (replicate (length ps) socket.CaseInbound) done s
  = ((fun p => AppWrite (Payload p)) <$> ps,
     Done (Continue
             (done,
              socket.set_rxBytes Conn PacketFactory
                (uint32 (socket.rxBytes s + foldr Z.add 0 (Length <$> ps)))
                (socket.set_inbound Conn PacketFactory
                   (chan.mk [] (chan.cap (socket.inbound s))
                            (chan.closed (socket.inbound s))) s)))).
Proof.
  revert s. induction ps as [|p ps IH]; intros s Hbuf Hrx.
  - simpl. rewrite Z.add_0_r, uint32_small by done.
    destruct s as [? ? ? ? ? ? [? ? ?] ?]. simpl in *. subst. reflexivity.
  - cbn [length replicate socket.receive].
    rewrite (receive_iter_inbound_cons done s p ps Hbuf).
    io_unfold. cbn [fmap list_fmap foldr].
    set (s1 := socket.set_rxBytes _ _ _ _).
    rewrite (IH s1); [|reflexivity|apply uint32_range].
    cbn [app]. subst s1. do 4 f_equal.
    unfold socket.set_rxBytes, socket.set_inbound. simpl. f_equal.
    apply uint32_add_add.
Qed.

End ReceiveFacts.

Lemma Deliver_after_receive_returned_panics_witness :
  let s := example.receiving 0 [example.jumbo] in
  let done := chan.mk [true] 1 true in
  exists done' s',
    socket.receive_iter socket.CaseDone done s
    = ([], Done (Return (done', s')))
    /\ socket.Deliver example.jumbo s' = ([], Panic "send on closed channel").
Proof.
  intros s done.
  destruct (Deliver_after_receive_returned_panics done s)
    as (done' & s' & Hr & _ & _ & Hp).
  - reflexivity.
  - discriminate.
  - exists done', s'. split; [exact Hr|apply Hp].
Defined.

Lemma receive_drains_queue_in_order_witness :
  let p1 := packet.data 0 0 example.hello in
  let p2 := packet.data 2 0 [Byte.x21] in
  socket.receive [socket.CaseInbound; socket.CaseInbound] (chan.make 1)
    (example.receiving 4294967295 [p1; p2])
  = ([AppWrite example.hello; AppWrite [Byte.x21]],
     Done (Continue (chan.make 1, example.receiving 2 []))).
Proof.
  intros p1 p2.
  assert (Hrx : 0 <= socket.rxBytes (example.receiving 4294967295 [p1; p2])
                < 2 ^ 32) by (simpl; lia).
  exact (receive_drains_queue_in_order [p1; p2] (chan.make 1)
           (example.receiving 4294967295 [p1; p2]) eq_refl Hrx).
Defined.

(** * Shutdown of the first socket *)

Section ShutdownFacts.

Context {Conn PacketFactory : Type}.
Context (Addr_String : Addr -> string).
Implicit Types (s : @socket.Socket Conn PacketFactory).
Implicit Types (done : chan.chan bool) (env : socket.TransmitEnv).

(** The receive pump takes the first packets of its queue, whatever the
    state of its done channel, and is then where the rest of its schedule
    leaves it. *)
Lemma receive_inbound_turns (ps rest : list Packet)
    (sched : list socket.ReceiveCase) done s :
  chan.buf (socket.inbound s) = ps ++ rest ->
  0 <= socket.rxBytes s < 2 ^ 32 ->
  socket.receive (replicate (length ps) socket.CaseInbound ++ sched) done s
  = let s' := socket.set_rxBytes Conn PacketFactory
                (uint32 (socket.rxBytes s + foldr Z.add 0 (Length <$> ps)))
                (socket.set_inbound Conn PacketFactory
                   (chan.mk rest (chan.cap (socket.inbound s))
                            (chan.closed (socket.inbound s))) s) in
    (((fun p => AppWrite (Payload p)) <$> ps)
       ++ (socket.receive sched done s').1,
     (socket.receive sched done s').2).
Proof.
  revert s. induction ps as [|p ps IH]; intros s Hbuf Hrx.
  - simpl. rewrite Z.add_0_r, uint32_small by done.
    destruct s as [? ? ? ? ? ? [? ? ?] ?]. simpl in *. subst.
    by destruct (socket.receive sched done _).
  - cbn [length replicate app socket.receive].
    rewrite (receive_iter_inbound_cons done s p (ps ++ rest) Hbuf).
    io_unfold. cbn [fmap list_fmap foldr].
    set (s1 := socket.set_rxBytes _ _ _ _).
    rewrite (IH s1); [|reflexivity|apply uint32_range].
    cbn zeta. subst s1.
    unfold socket.set_rxBytes, socket.set_inbound. simpl.
    rewrite uint32_add_add. reflexivity.
Qed.

(** Shutdown by [Close].  [Close] on a socket with an empty open shutdown
    channel queues the signal, closes the channel and closes the
    application.  On any socket with a signal queued, the shutdown turn of
    the run loop hands one signal to each pump, closes their two done
    channels and returns.  With its done channel so signalled, on any
    socket: a turn of the transmit pump returns without reading; the
    receive pump, whose inbound queue is open, may first take any number
    of the packets still queued, in order, and when it takes the done case
    it closes the inbound queue, keeping the rest, and returns; and once
    the queue is empty the inbound case cannot be taken. *)
Theorem Close_stops_run_loop_and_pumps s :
  let signalled := chan.mk [true] 1 true in
  let taken := chan.mk (@nil bool) 1 true in
  (chan.closed (socket.shutdown s) = false ->
   chan.buf (socket.shutdown s) = [] ->
   (0 < chan.cap (socket.shutdown s))%nat ->
   socket.Close s
   = ([AppClose],
      Done (socket.set_shutdown Conn PacketFactory
              (chan.mk [true] (chan.cap (socket.shutdown s)) true) s)))
  /\ (forall b rest,
        chan.buf (socket.shutdown s) = b :: rest ->
        socket.Run_iter socket.CaseShutdown (chan.make 1) (chan.make 1) s
        = ([], Done (Return
                       (signalled, signalled,
                        socket.set_shutdown Conn PacketFactory
                          (chan.mk rest (chan.cap (socket.shutdown s))
                                   (chan.closed (socket.shutdown s))) s))))
  /\ (forall env,
        socket.transmit_iter Addr_String env signalled s
        = ([], Done (Return (taken, s))))
  /\ (forall ps rest,
        chan.buf (socket.inbound s) = ps ++ rest ->
        chan.closed (socket.inbound s) = false ->
        0 <= socket.rxBytes s < 2 ^ 32 ->
        socket.receive
          (replicate (length ps) socket.CaseInbound ++ [socket.CaseDone])
          signalled s
        = ((fun p => AppWrite (Payload p)) <$> ps,
           Done (Return
                   (taken,
                    socket.set_rxBytes Conn PacketFactory
                      (uint32 (socket.rxBytes s
                               + foldr Z.add 0 (Length <$> ps)))
                      (socket.set_inbound Conn PacketFactory
                         (chan.mk rest (chan.cap (socket.inbound s)) true)
                         s)))))
  /\ (chan.buf (socket.inbound s) = [] ->
      chan.closed (socket.inbound s) = false ->
      socket.receive_iter socket.CaseInbound signalled s = ([], Blocked)).
Proof.
  intros signalled taken. split; [|split; [|split; [|split]]].
  - intros Hc Hb Hcap. rewrite Close_open; [by rewrite Hb|done|].
    rewrite Hb. simpl. lia.
  - intros b rest Hb. unfold socket.Run_iter.
    rewrite (recv_cons _ _ _ Hb). reflexivity.
  - intros env. reflexivity.
  - intros ps rest Hbuf Hc Hrx.
    rewrite (receive_inbound_turns ps rest [socket.CaseDone] signalled s
               Hbuf Hrx).
    cbn zeta. rewrite Hc.
    destruct s as [? ? ? ? ? ? [? ? ?] ?]. simpl in *.
    by rewrite app_nil_r.
  - intros Hb Hc. unfold socket.receive_iter. by rewrite recv_empty_open.
Qed.

(** If the application's read reports the end of input after [Close] has
    run and before the pump has seen its done signal, the transmit pump
    panics: it sends the shutdown signal on the channel [Close] has
    closed. *)
Theorem transmit_end_of_input_after_Close_panics s done env :
  chan.closed (socket.shutdown s) = false ->
  (length (chan.buf (socket.shutdown s)) < chan.cap (socket.shutdown s))%nat ->
  chan.recv done = chan.NotReady ->
  socket.readErr env = Some socket.EOF ->
  exists s1,
    socket.Close s = ([AppClose], Done s1)
    /\ socket.transmit_iter Addr_String env done s1
       = ([AppRead], Panic "send on closed channel").
Proof.
  intros Hc Hroom Hd He. eexists. split; [by apply Close_open|].
  unfold socket.transmit_iter. rewrite Hd, He. reflexivity.
Qed.

(** At the end of input the transmit pump queues the shutdown signal and
    returns; the application stays open.  Until the run loop has taken
    that signal, [Close] blocks on the full channel; once the run loop has
    taken it, [Close] goes through. *)
Theorem Close_after_end_of_input_waits_for_run_loop s done env :
  socket.shutdown s = chan.make 1 ->
  chan.recv done = chan.NotReady ->
  socket.readErr env = Some socket.EOF ->
  exists s1 s2 s3 rx tx,
    socket.transmit_iter Addr_String env done s
    = ([AppRead], Done (Return (done, s1)))
    /\ socket.Close s1 = ([], Blocked)
    /\ socket.Run_iter socket.CaseShutdown (chan.make 1) (chan.make 1) s1
       = ([], Done (Return (rx, tx, s2)))
    /\ socket.Close s2 = ([AppClose], Done s3).
Proof.
  intros Hs Hd He.
  destruct s as [la ra tx0 rx0 app pk ib sh]. simpl in *. subst sh.
  eexists _, _, _, _, _. split.
  { unfold socket.transmit_iter. rewrite Hd, He. reflexivity. }
  repeat split; reflexivity.
Qed.

(** Signals do not stop the run loop: however many it takes, it keeps
    running and the socket and the pumps' channels are as they were. *)
Theorem Run_ignores_signals (n : nat) (rxdone txdone : chan.chan bool) s :
  socket.Run (replicate n socket.CaseSignal) rxdone txdone s
  = ([], Done (Continue (rxdone, txdone, s))).
Proof. induction n as [|n IH]; [reflexivity|]. simpl. by rewrite IH. Qed.

(** The transmit pump hands the factory each chunk it reads, in order,
    and counts what the factory reports: over turns on which the read and
    the factory succeed, its counter ends at the sum of the reported
    counts, modulo 2^32, on top of what it was, and nothing else
    changes. *)
Theorem transmit_forwards_chunks_and_counts
    (envs : list socket.TransmitEnv) done s :
  chan.recv done = chan.NotReady ->
  Forall (fun env => socket.readErr env = None /\ socket.packErr env = None)
         envs ->
  0 <= socket.txBytes s < 2 ^ 32 ->
  socket.transmit Addr_String envs done s
  = (concat ((fun env => [AppRead; FactorySend (socket.readData env)])
               <$> envs),
     Done (Continue
             (done,
              socket.set_txBytes Conn PacketFactory
                (uint32 (socket.txBytes s
                         + foldr Z.add 0 (socket.packN <$> envs))) s))).
Proof.
  intros Hd Henvs. revert s.
  induction Henvs as [|env envs [Hr Hp] _ IH]; intros s Htx.
  - simpl. rewrite Z.add_0_r, uint32_small by done.
    destruct s. reflexivity.
  - cbn [socket.transmit].
    unfold socket.transmit_iter at 1. rewrite Hd, Hr, Hp.
    io_unfold. cbn [fmap list_fmap foldr concat app].
    set (s1 := socket.set_txBytes _ _ _ _).
    rewrite (IH s1) by apply uint32_range.
    cbn [app]. subst s1. do 4 f_equal.
    unfold socket.set_txBytes. simpl. f_equal. apply uint32_add_add.
Qed.

End ShutdownFacts.

Lemma Close_stops_run_loop_and_pumps_witness :
  let s := example.receiving 7 [example.jumbo] in
  let s1 := socket.set_shutdown unit unit (chan.mk [true] 1 true) s in
  let signalled := chan.mk [true] 1 true in
  let taken := chan.mk (@nil bool) 1 true in
  socket.Close s = ([AppClose], Done s1)
  /\ socket.Run_iter socket.CaseShutdown (chan.make 1) (chan.make 1) s1
     = ([], Done (Return
                    (signalled, signalled,
                     socket.set_shutdown unit unit (chan.mk [] 1 true) s)))
  /\ socket.receive [socket.CaseDone] signalled s
     = ([], Done (Return
                    (taken,
                     socket.set_inbound unit unit
                       (chan.mk [example.jumbo] 100 true) s)))
  /\ socket.receive [socket.CaseInbound; socket.CaseDone] signalled s
     = ([AppWrite []],
        Done (Return
                (taken,
                 socket.set_rxBytes unit unit 65542
                   (socket.set_inbound unit unit (chan.mk [] 100 true) s)))).
Proof.
  intros s s1 signalled taken.
  destruct (Close_stops_run_loop_and_pumps example.Addr_String s)
    as (Hclose & _ & _ & Hrecv & _).
  destruct (Close_stops_run_loop_and_pumps example.Addr_String s1)
    as (_ & Hrun & _).
  assert (Hrx : 0 <= socket.rxBytes s < 2 ^ 32) by (simpl; lia).
  split; [|split; [|split]].
  - apply Hclose; [reflexivity|reflexivity|simpl; lia].
  - exact (Hrun true [] eq_refl).
  - exact (Hrecv [] [example.jumbo] eq_refl eq_refl Hrx).
  - exact (Hrecv [example.jumbo] [] eq_refl eq_refl Hrx).
Defined.

Lemma transmit_end_of_input_after_Close_panics_witness :
  let s := example.fresh example.remote in
  let env := socket.mkTransmitEnv [] (Some socket.EOF) 0 None in
  exists s1,
    socket.Close s = ([AppClose], Done s1)
    /\ socket.transmit_iter example.Addr_String env (chan.make 1) s1
       = ([AppRead], Panic "send on closed channel").
Proof.
  intros s env.
  apply (transmit_end_of_input_after_Close_panics
           example.Addr_String s (chan.make 1) env).
  - reflexivity.
  - simpl. lia.
  - reflexivity.
  - reflexivity.
Defined.

Lemma Close_after_end_of_input_waits_for_run_loop_witness :
  let s := example.fresh example.remote in
  let env := socket.mkTransmitEnv [] (Some socket.EOF) 0 None in
  exists s1 s2 s3 rx tx,
    socket.transmit_iter example.Addr_String env (chan.make 1) s
    = ([AppRead], Done (Return (chan.make 1, s1)))
    /\ socket.Close s1 = ([], Blocked)
    /\ socket.Run_iter socket.CaseShutdown (chan.make 1) (chan.make 1) s1
       = ([], Done (Return (rx, tx, s2)))
    /\ socket.Close s2 = ([AppClose], Done s3).
Proof.
  intros s env.
  apply (Close_after_end_of_input_waits_for_run_loop
           example.Addr_String s (chan.make 1) env); reflexivity.
Defined.

Lemma transmit_forwards_chunks_and_counts_witness :
  let s := socket.set_txBytes unit unit 4294967295
             (example.fresh example.remote) in
  let e1 := socket.mkTransmitEnv example.hello None 2 None in
  let e2 := socket.mkTransmitEnv [Byte.x21] None 1 None in
  socket.transmit example.Addr_String [e1; e2] (chan.make 1) s
  = ([AppRead; FactorySend example.hello; AppRead; FactorySend [Byte.x21]],
     Done (Continue
             (chan.make 1,
              socket.set_txBytes unit unit 2 (example.fresh example.remote)))).
Proof.
  intros s e1 e2.
  assert (Htx : 0 <= socket.txBytes s < 2 ^ 32) by (simpl; lia).
  assert (Hok : Forall (fun env => socket.readErr env = None
                                   /\ socket.packErr env = None) [e1; e2])
    by (repeat constructor).
  exact (transmit_forwards_chunks_and_counts example.Addr_String [e1; e2]
           (chan.make 1) s eq_refl Hok Htx).
Defined.

(** * What the pumps of the first socket leave alone *)

(** A turn of the receive pump changes the receive counter and the inbound
    queue and nothing else of the socket, and the only call it makes is a
    write to the application; a turn of the transmit pump changes the
    transmit counter and the shutdown channel and nothing else, and never
    writes to the application nor closes it. *)
Theorem pumps_keep_to_their_side {Conn PacketFactory : Type}
    (Addr_String : Addr -> string)
    (s : @socket.Socket Conn PacketFactory) (done : chan.chan bool) :
  (forall sel t l,
     socket.receive_iter sel done s = (t, Done l) ->
     (loop_state l).2
     = socket.set_rxBytes Conn PacketFactory
         (socket.rxBytes (loop_state l).2)
         (socket.set_inbound Conn PacketFactory
            (socket.inbound (loop_state l).2) s)
     /\ Forall (fun c => exists payload, c = AppWrite payload) t)
  /\ (forall env t l,
        socket.transmit_iter Addr_String env done s = (t, Done l) ->
        (loop_state l).2
        = socket.set_txBytes Conn PacketFactory
            (socket.txBytes (loop_state l).2)
            (socket.set_shutdown Conn PacketFactory
               (socket.shutdown (loop_state l).2) s)
        /\ Forall (fun c => c ≠ AppClose
                            /\ forall payload, c ≠ AppWrite payload) t).
Proof.
  destruct s as [la ra tx0 rx0 app pk ib sh]. split.
  - intros sel t l H.
    destruct (receive_iter_Done _ _ _ _ _ H)
      as [(_ & -> & done' & ch & _ & ->)|(_ & p & ch & _ & -> & ->)].
    + split; [reflexivity|constructor].
    + split; [reflexivity|]. repeat constructor. by eexists.
  - intros env t l. unfold socket.transmit_iter.
    destruct (chan.recv done) as [b done'| |]; io_unfold; simpl.
    + intros [= <- <-]. split; [reflexivity|constructor].
    + intros [= <- <-]. split; [reflexivity|constructor].
    + destruct (socket.readErr env) as [[|msg]|]; simpl.
      * destruct (chan.send true sh) as [sh'| |]; simpl; try discriminate.
        intros [= <- <-]. split; [reflexivity|].
        repeat constructor; done.
      * intros [= <- <-]. split; [reflexivity|]. repeat constructor; done.
      * destruct (socket.packErr env) as [e|]; simpl.
        -- intros [= <- <-]. split; [reflexivity|].
           repeat constructor; done.
        -- intros [= <- <-]. split; [reflexivity|].
           repeat constructor; done.
Qed.

Lemma pumps_keep_to_their_side_witness :
  let p := packet.data 0 7 example.hello in
  let s := example.receiving 100 [p] in
  exists l,
    socket.receive_iter socket.CaseInbound (chan.make 1) s
    = ([AppWrite example.hello], Done l)
    /\ socket.shutdown (loop_state l).2 = socket.shutdown s.
Proof.
  intros p s. eexists. split; [reflexivity|].
  destruct (pumps_keep_to_their_side example.Addr_String s (chan.make 1))
    as [Hrecv _].
  destruct (Hrecv socket.CaseInbound _ _ eq_refl) as [Heq _].
  rewrite Heq. reflexivity.
Defined.

(** * Further properties of the second socket *)

Section SocketAtcFacts.

Context {Conn Net PacketFactory : Type}.
Implicit Types (s : @socket_atc.Socket Conn Net PacketFactory).
Implicit Types (p q : Packet) (net : Net).

Lemma receiver_iter_eq p s :
  socket_atc.receiver_iter p s
  = ([AtcAck (AckNo p); AppWrite (Payload p)],
     Done (socket_atc.set_rxBytes Conn Net PacketFactory
             (uint32 (socket_atc.rxBytes s + uint32 (Length p)))
             (socket_atc.set_atc Conn Net PacketFactory
                (atc.Ack (AckNo p) (socket_atc.atc s)) s))).
Proof. reflexivity. Qed.

(** [NewSocket] fails exactly when the factory constructor does, with the
    constructor's error behind a fixed prefix and no socket; otherwise the
    socket has the two addresses, both counters at zero, the factory, and
    a controller with nothing in flight whose [Send] never returns an
    error, whatever the network does with the packet. *)
Theorem NewSocket_result
    (nw_Send : string -> Packet -> Net -> Net) (MaxPayloadBytes : Z)
    (pckfactory_New :
       Z -> Z -> socket_atc.Sink Net -> Z -> PacketFactory * error)
    (la ra : Addr) (c : Conn) :
  let made := pckfactory_New (uint16 (Port la)) (uint16 (Port ra))
                socket_atc.sink MaxPayloadBytes in
  let r := socket_atc.NewSocket nw_Send MaxPayloadBytes pckfactory_New
             la ra c in
  (forall e, made.2 = Some e ->
     r = (None, Some ("could not initialize new packetfactory: " +:+ e)))
  /\ (made.2 = None ->
      exists s,
        r = (Some s, None)
        /\ socket_atc.lAddr s = la /\ socket_atc.rAddr s = ra
        /\ socket_atc.txBytes s = 0 /\ socket_atc.rxBytes s = 0
        /\ socket_atc.pf s = made.1
        /\ socket_atc.application s = c
        /\ atc.inFlight (socket_atc.atc s) = ∅
        /\ forall p net,
             (atc.Send p (socket_atc.atc s) net).1.1 = None
             /\ (atc.Send p (socket_atc.atc s) net).2
                = nw_Send (Host ra) p net).
Proof.
  intros made r. subst made r. unfold socket_atc.NewSocket.
  destruct (pckfactory_New _ _ _ _) as [pf0 [e|]]; simpl; split.
  - by intros e' [= <-].
  - discriminate.
  - discriminate.
  - intros _. eexists. split; [reflexivity|]. simpl.
    repeat split; reflexivity.
Qed.

(** A turn of the sender always completes, and makes no call but the
    read and the factory's [Send].  It stops at the first error, of the
    read or of the factory, without a word and with its counter as it was;
    on every other turn it goes round with the counter advanced, modulo
    2^32, by the count the factory reported.  It never touches the receive
    counter. *)
Theorem sender_iter_counts_successful_turns
    (pf_Send : list Byte.byte -> PacketFactory ->
               atc.AirTrafficCtrl Net * Net ->
               (Z * error) * PacketFactory * (atc.AirTrafficCtrl Net * Net))
    (rd : list Byte.byte + string) s net :
  exists t l,
    socket_atc.sender_iter pf_Send rd s net = (t, Done l)
    /\ socket_atc.rxBytes (loop_state l).1 = socket_atc.rxBytes s
    /\ Forall (fun c => exists msg, c = AppRead \/ c = FactorySend msg) t
    /\ match l with
       | Return (s', _) =>
           socket_atc.txBytes s' = socket_atc.txBytes s
           /\ ((exists e, rd = inr e)
               \/ exists msg e,
                    rd = inl msg
                    /\ (pf_Send msg (socket_atc.pf s)
                          (socket_atc.atc s, net)).1.1.2
                       = Some e)
       | Continue (s', _) =>
           exists msg,
             rd = inl msg
             /\ (pf_Send msg (socket_atc.pf s) (socket_atc.atc s, net)).1.1.2
                = None
             /\ socket_atc.txBytes s'
                = uint32 (socket_atc.txBytes s
                          + uint32 (pf_Send msg (socket_atc.pf s)
                                      (socket_atc.atc s, net)).1.1.1)
       end.
Proof.
  unfold socket_atc.sender_iter. io_unfold.
  destruct rd as [msg|e]; simpl.
  - destruct (pf_Send msg (socket_atc.pf s) (socket_atc.atc s, net))
      as [[[n [e|]] f] [a net']] eqn:Hpf; simpl.
    + eexists _, _. split; [reflexivity|]. simpl.
      split; [reflexivity|]. split.
      * constructor; [exists []; by left|].
        constructor; [exists msg; by right|constructor].
      * split; [reflexivity|]. right. exists msg, e.
        split; [reflexivity|]. by rewrite Hpf.
    + eexists _, _. split; [reflexivity|]. simpl.
      split; [reflexivity|]. split.
      * constructor; [exists []; by left|].
        constructor; [exists msg; by right|constructor].
      * exists msg. split; [reflexivity|]. by rewrite Hpf.
  - eexists _, _. split; [reflexivity|]. simpl.
    split; [reflexivity|]. split.
    + constructor; [exists []; by left|constructor].
    + split; [reflexivity|]. left. by exists e.
Qed.

(** A packet handed to the sink of [NewSocket] is in flight from then on,
    whatever the network answered; a turn of the receive pump removes it
    exactly when the packet taken carries its sequence number as
    acknowledgement number. *)
Theorem sink_tracks_until_receiver_acks p q s net :
  let s1 := socket_atc.set_atc Conn Net PacketFactory
              (socket_atc.sink p (socket_atc.atc s, net)).2.1 s in
  atc.inFlight (socket_atc.atc s1) !! SeqNo p = Some p
  /\ exists s2,
       socket_atc.receiver_iter q s1
       = ([AtcAck (AckNo q); AppWrite (Payload q)], Done s2)
       /\ (AckNo q = SeqNo p ->
           atc.inFlight (socket_atc.atc s2) !! SeqNo p = None)
       /\ (AckNo q ≠ SeqNo p ->
           atc.inFlight (socket_atc.atc s2) !! SeqNo p = Some p).
Proof.
  intros s1.
  assert (Hin : atc.inFlight (socket_atc.atc s1) !! SeqNo p = Some p).
  { subst s1. simpl. rewrite sink_state. simpl.
    rewrite Send_state. apply register_lookup. }
  split; [exact Hin|].
  rewrite receiver_iter_eq. eexists. split; [reflexivity|]. simpl. split.
  - intros ->. apply lookup_delete_eq.
  - intros Hne. rewrite lookup_delete_ne by done. exact Hin.
Qed.

(** Over any run of packets the receive pump acknowledges each one and
    then writes its payload, in the order of arrival; afterwards exactly
    the entries under the acknowledgement numbers carried are gone from
    the in-flight map, the receive counter has advanced by the sum of the
    length fields modulo 2^32, and the transmit counter is as it was. *)
Theorem receiver_acks_and_writes_in_order (ps : list Packet) s :
  0 <= socket_atc.rxBytes s < 2 ^ 32 ->
  exists s',
    socket_atc.receiver ps s
    = (concat ((fun p => [AtcAck (AckNo p); AppWrite (Payload p)]) <$> ps),
       Done s')
    /\ (forall k,
          atc.inFlight (socket_atc.atc s') !! k
          = if decide (k ∈ AckNo <$> ps) then None
            else atc.inFlight (socket_atc.atc s) !! k)
    /\ socket_atc.rxBytes s'
       = uint32 (socket_atc.rxBytes s + foldr Z.add 0 (Length <$> ps))
    /\ socket_atc.txBytes s' = socket_atc.txBytes s.
Proof.
  revert s. induction ps as [|p ps IH]; intros s Hrx.
  - exists s. split; [reflexivity|]. split; [|split].
    + intros k. destruct (decide _) as [Hin|_]; [|done].
      by apply elem_of_nil in Hin.
    + simpl. by rewrite Z.add_0_r, uint32_small.
    + reflexivity.
  - cbn [socket_atc.receiver]. rewrite receiver_iter_eq.
    set (s1 := socket_atc.set_rxBytes _ _ _ _ _).
    destruct (IH s1) as (s' & Hrun & Hfl & Hrx' & Htx).
    { apply uint32_range. }
    exists s'. split; [|split; [|split]].
    + io_unfold. rewrite Hrun. reflexivity.
    + intros k. rewrite Hfl. subst s1. simpl.
      destruct (decide (k ∈ AckNo <$> ps)) as [Hin|Hnin].
      * destruct (decide _) as [_|Hn]; [done|]. exfalso. apply Hn.
        by apply elem_of_cons; right.
      * destruct (decide (k = AckNo p)) as [->|Hne].
        -- rewrite lookup_delete_eq.
           destruct (decide _) as [_|Hn]; [done|]. exfalso. apply Hn.
           by apply elem_of_cons; left.
        -- rewrite lookup_delete_ne by done.
           destruct (decide _) as [Hin|_]; [|done].
           apply elem_of_cons in Hin as [?|?]; done.
    + rewrite Hrx'. subst s1. simpl. apply uint32_add_add.
    + rewrite Htx. reflexivity.
Qed.

End SocketAtcFacts.

Lemma NewSocket_result_witness :
  let ok := fun (sp dp : Z) (_ : socket_atc.Sink (list Packet)) (m : Z) =>
              (example.mkFactory sp dp 0 (Z.to_nat m), @None string) in
  let bad := fun (sp dp : Z) (_ : socket_atc.Sink (list Packet)) (m : Z) =>
               (example.mkFactory sp dp 0 0, Some "payload size too small") in
  let nw := fun (_ : string) (p : Packet) (log : list Packet) => log ++ [p] in
  (exists s,
     socket_atc.NewSocket nw 1460 ok example.local example.remote tt
     = (Some s, None)
     /\ atc.inFlight (socket_atc.atc s) = ∅
     /\ (atc.Send example.jumbo (socket_atc.atc s) []).1.1 = None)
  /\ socket_atc.NewSocket nw 1460 bad example.local example.remote tt
     = (None,
        Some "could not initialize new packetfactory: payload size too small").
Proof.
  intros ok bad nw. split.
  - destruct (NewSocket_result nw 1460 ok example.local example.remote tt)
      as [_ H].
    destruct (H eq_refl) as (s & Hs & _ & _ & _ & _ & _ & _ & Hfl & Hsend).
    exists s. split; [exact Hs|]. split; [exact Hfl|].
    apply (Hsend example.jumbo []).
  - destruct (NewSocket_result nw 1460 bad example.local example.remote tt)
      as [H _].
    apply (H "payload size too small"). reflexivity.
Defined.

Lemma sender_iter_counts_successful_turns_witness :
  exists t s' net',
    socket_atc.sender_iter (example.pf_Send socket_atc.sink)
      (inl example.hello) example.built [] = (t, Done (Continue (s', net')))
    /\ socket_atc.txBytes s' = 2
    /\ socket_atc.rxBytes s' = 0.
Proof.
  destruct (sender_iter_counts_successful_turns
              (example.pf_Send socket_atc.sink) (inl example.hello)
              example.built [])
    as (t & l & Hrun & Hrx & _ & Hl).
  assert (Hc : exists st, l = Continue st).
  { destruct l as [st|st]; [by exists st|].
    vm_compute in Hrun. discriminate. }
  destruct Hc as [[s' net'] ->].
  destruct Hl as (msg & [= <-] & _ & Htx).
  exists t, s', net'. split; [exact Hrun|].
  split; [exact (eq_trans Htx eq_refl)|exact Hrx].
Defined.

Lemma sink_tracks_until_receiver_acks_witness :
  let s := example.established atc.always_down [] in
  let p5 := packet.data 5 0 example.hello in
  let ack5 := packet.data 0 5 [] in
  let s1 := socket_atc.set_atc unit (list Packet) example.Factory
              (socket_atc.sink p5 (socket_atc.atc s, [])).2.1 s in
  atc.inFlight (socket_atc.atc s1) !! 5 = Some p5
  /\ exists s2,
       socket_atc.receiver_iter ack5 s1
       = ([AtcAck 5; AppWrite []], Done s2)
       /\ atc.inFlight (socket_atc.atc s2) !! 5 = None.
Proof.
  intros s p5 ack5 s1.
  destruct (sink_tracks_until_receiver_acks p5 ack5 s [])
    as (Hin & s2 & Hr & Hack & _).
  split; [exact Hin|].
  exists s2. split; [exact Hr|]. apply Hack. reflexivity.
Defined.

Lemma receiver_acks_and_writes_in_order_witness :
  let p5 := packet.data 5 0 example.hello in
  let p6 := packet.data 6 0 [] in
  let s := example.established atc.always_ok [p5; p6] in
  let a1 := packet.data 0 5 example.hello in
  let a2 := packet.data 2 9 [Byte.x21] in
  exists s',
    socket_atc.receiver [a1; a2] s
    = ([AtcAck 5; AppWrite example.hello; AtcAck 9; AppWrite [Byte.x21]],
       Done s')
    /\ atc.inFlight (socket_atc.atc s') !! 5 = None
    /\ atc.inFlight (socket_atc.atc s') !! 6 = Some p6
    /\ socket_atc.rxBytes s' = 3.
Proof.
  intros p5 p6 s a1 a2.
  assert (Hrx : 0 <= socket_atc.rxBytes s < 2 ^ 32) by (simpl; lia).
  destruct (receiver_acks_and_writes_in_order [a1; a2] s Hrx)
    as (s' & Hrun & Hfl & Hrx' & _).
  exists s'. split; [exact Hrun|].
  split; [|split].
  - rewrite Hfl. reflexivity.
  - rewrite Hfl. reflexivity.
  - rewrite Hrx'. reflexivity.
Defined.
